(** * PSBT tooling scripts: a shallow embedding and its properties

    The repository holds three Node.js scripts built on bitcoinjs-lib,
    ecpair and tiny-secp256k1:

    - [sign_and_broadcast.js]   sign, validate, finalize, extract, broadcast;
    - [fetch_utxos_and_build.js] query UTXOs and print a /build_transfer body;
    - [inspect_psbt.js]          print the inputs of a PSBT.

    The scripts are modelled as functions into a small trace monad: a run
    yields the list of observable events (console lines, calls into the
    libraries, HTTP requests) and how the run ended (normally, by a thrown
    error, by [process.exit]).  The libraries and the HTTP endpoints are not
    part of the repository; they enter as records of operations
    ([BitcoinJS], [World]) that the scripts are parametric in. *)

From Stdlib Require Import ZArith String Ascii.
From Stdlib.Strings Require Import Byte.
From stdpp Require Import base option list strings gmap pretty.

Local Open Scope Z_scope.

(** ** JavaScript values and built-ins used by the scripts *)

Module JS.

(** A [Buffer] / [Uint8Array]. *)
Definition Buffer : Type := list byte.

(** The line feed and the double quote, which a string literal cannot hold. *)
Definition nl : string := String "010"%char EmptyString.
Definition dquote : string := String "034"%char EmptyString.

(** A value that may be [undefined] (a missing [process.argv] slot, a
    missing property). *)
Definition maybe (A : Type) : Type := option A.

(** [s || ''] *)
Definition or_empty (s : maybe string) : string :=
  match s with
  | None => ""
  | Some s => if String.eqb s "" then "" else s
  end.

(** [`${s}`] for a possibly undefined string. *)
Definition template (s : maybe string) : string :=
  match s with
  | None => "undefined"
  | Some s => s
  end.

(** [String.prototype.toLowerCase], on the ASCII letters; other bytes are
    left as they are.  (A string is its UTF-8 bytes.  JavaScript also
    lowercases letters outside ASCII, but it maps none of them to an ASCII
    letter other than "k", so comparisons with the network names below come
    out the same.) *)
Definition lower_ascii (c : ascii) : ascii :=
  let n := N_of_ascii c in
  if ((65 <=? n) && (n <=? 90))%N then ascii_of_N (n + 32) else c.

Fixpoint toLowerCase (s : string) : string :=
  match s with
  | EmptyString => EmptyString
  | String c r => String (lower_ascii c) (toLowerCase r)
  end.

(** [String.prototype.trim], on the ASCII white space (TAB, LF, VT, FF, CR,
    space).  (JavaScript also strips the white space outside ASCII, such as
    U+00A0 and U+FEFF; it is used here on the broadcaster's answer only.) *)
Definition is_space (c : ascii) : bool :=
  let n := N_of_ascii c in
  (((9 <=? n) && (n <=? 13)) || (n =? 32))%N.

Fixpoint trimStart (s : string) : string :=
  match s with
  | EmptyString => EmptyString
  | String c r => if is_space c then trimStart r else s
  end.

Fixpoint trimEnd (s : string) : string :=
  match s with
  | EmptyString => EmptyString
  | String c r =>
      match trimEnd r with
      | EmptyString => if is_space c then EmptyString else String c EmptyString
      | r' => String c r'
      end
  end.

Definition trim (s : string) : string := trimEnd (trimStart s).

(** [parseInt(s, 10)]: leading white space, an optional sign, then the
    longest run of decimal digits; [None] is [NaN].  The result is the exact
    integer and the white space is the ASCII one: this is what JavaScript
    computes when the string is ASCII and the number is below 2^53 in size
    ([exact_parseInt] below); beyond that JavaScript rounds to a double, and
    it also skips the white space outside ASCII. *)
Definition digit_of (c : ascii) : option Z :=
  let n := N_of_ascii c in
  if ((48 <=? n) && (n <=? 57))%N then Some (Z.of_N (n - 48)) else None.

Fixpoint digits_prefix (s : string) (acc : option Z) : option Z :=
  match s with
  | EmptyString => acc
  | String c r =>
      match digit_of c with
      | Some d => digits_prefix r (Some (10 * default 0 acc + d))
      | None => acc
      end
  end.

Definition parseInt10 (s : string) : option Z :=
  match trimStart s with
  | String "-"%char r => Z.opp <$> digits_prefix r None
  | String "+"%char r => digits_prefix r None
  | r => digits_prefix r None
  end.

(** The string holds ASCII characters only. *)
Fixpoint ascii_only (s : string) : bool :=
  match s with
  | EmptyString => true
  | String c r => (N_of_ascii c <? 128)%N && ascii_only r
  end.

(** [parseInt10 s] is what [parseInt(s, 10)] gives: [s] is ASCII, and the
    number read, if there is one, is a safe integer. *)
Definition exact_parseInt (s : string) : bool :=
  ascii_only s &&
  match parseInt10 s with
  | Some n => (Z.abs n <? 2 ^ 53)%Z
  | None => true
  end.

(** [buf.toString('hex')] *)
Definition hex_digit (n : N) : ascii :=
  if (n <? 10)%N then ascii_of_N (48 + n) else ascii_of_N (87 + n).

Fixpoint toHexString (b : Buffer) : string :=
  match b with
  | [] => EmptyString
  | x :: r =>
      let n := Byte.to_N x in
      String (hex_digit (n / 16)) (String (hex_digit (n mod 16)) (toHexString r))
  end.

(** A property of a parsed JSON object: a scalar, [undefined] when the
    property is absent, or an array or object (which no script looks into). *)
Inductive value : Type :=
| undefined
| null
| boolean (b : bool)
| number (n : Z)
| str (s : string)
| compound.

(** [o.k] on a parsed JSON object. *)
Definition prop (o : gmap string value) (k : string) : value :=
  default undefined (o !! k).

End JS.

(** ** Outcomes and traces *)

(** What an operation that may throw gives back: a value, or the thrown
    error's [message]. *)
Inductive exc (A : Type) : Type :=
| Ok (a : A)
| Thrown (message : string).
Arguments Ok {A} a.
Arguments Thrown {A} message.

Definition is_thrown {A} (r : exc A) : bool :=
  match r with
  | Ok _ => false
  | Thrown _ => true
  end.

(** The values of the expressions [bitcoin.networks.bitcoin], [.testnet],
    [.signet] and [.regtest], as the scripts write them.  What each one is
    belongs to the library: bitcoinjs-lib 6 defines [bitcoin], [testnet] and
    [regtest] and has no [signet] property, so there [networks_signet] is
    [undefined], and a library function that is handed it works on its
    default network, mainnet. *)
Inductive network : Type :=
| networks_bitcoin
| networks_testnet
| networks_signet
| networks_regtest.

#[global] Instance network_eq_dec : EqDecision network.
Proof. solve_decision. Defined.

#[global] Instance byte_eq_dec : EqDecision byte.
Proof. exact Byte.byte_eq_dec. Defined.

(** One input descriptor of the /build_transfer body.  ([JSON.stringify]
    leaves out a field whose value is [undefined].) *)
Record utxo_descriptor : Type := {
  txid : JS.value;
  vout : JS.value;
  amount_sats : JS.value;
  script_pubkey_hex : string;
  sequence : JS.value
}.

(** The /build_transfer body ([transferInput]). *)
Record transfer_input : Type := {
  network_name : string;
  to_address : string;
  amount_btc : string;
  change_address : string;
  fee_rate_sat_per_vb : option Z;
  assume_taproot : bool;
  utxos : list utxo_descriptor
}.

(** The object printed after extraction. *)
Record signed_tx : Type := {
  signed_txid : string;
  signed_hex : string;
  signed_psbt_base64 : string
}.

(** Calls that leave the script: into bitcoinjs-lib, or over HTTP. *)
Inductive call : Type :=
| signInput_called (index : nat) (threw : bool)
| validateSignaturesOfAllInputs_called (result : exc bool)
| finalizeAllInputs_called (threw : bool)
| extractTransaction_called (threw : bool)
| fromOutputScript_called (script : JS.Buffer) (net : network)
| http_get (url : string)
| http_post (url body : string).

(** Observable events of a run, in order. *)
Inductive event : Type :=
| console_log (line : string)
| console_error (line : string)
| print_transfer_input (body : transfer_input)
| print_signed_tx (tx : signed_tx)
| external (c : call).

(** How a computation ends. *)
Inductive ending (A : Type) : Type :=
| Return (a : A)
| Throw (message : string)
| Exit (code : Z)
| OutOfFuel.
Arguments Return {A} a.
Arguments Throw {A} message.
Arguments Exit {A} code.
Arguments OutOfFuel {A}.

Definition M (A : Type) : Type := list event * ending A.

Definition trace {A} (m : M A) : list event := fst m.
Definition ended {A} (m : M A) : ending A := snd m.

Definition ret {A} (a : A) : M A := ([], Return a).
Definition emit (e : event) : M unit := ([e], Return tt).
Definition throw {A} (message : string) : M A := ([], Throw message).
Definition exit {A} (code : Z) : M A := ([], Exit code).
Definition out_of_fuel {A} : M A := ([], OutOfFuel).

Definition bind {A B} (m : M A) (k : A -> M B) : M B :=
  match snd m with
  | Return a => (fst m ++ fst (k a), snd (k a))
  | Throw message => (fst m, Throw message)
  | Exit code => (fst m, Exit code)
  | OutOfFuel => (fst m, OutOfFuel)
  end.

(** A library result enters the script: a thrown error propagates. *)
Definition lift {A} (r : exc A) : M A :=
  match r with
  | Ok a => ret a
  | Thrown message => throw message
  end.

(** [try { m } catch (e) { handler e.message }]; [process.exit] is not an
    exception and is not caught. *)
Definition try_catch {A} (m : M A) (handler : string -> M A) : M A :=
  match snd m with
  | Throw message => (fst m ++ fst (handler message), snd (handler message))
  | _ => m
  end.

Declare Scope script_scope.
Delimit Scope script_scope with script.
Notation "x <- m ;; k" := (bind m (fun x => k))
  (at level 100, m at next level, right associativity) : script_scope.
Notation "m ;; k" := (bind m (fun _ => k))
  (at level 100, right associativity) : script_scope.

(** ** The libraries and the outside world

    bitcoinjs-lib, ecpair, tiny-secp256k1 and the HTTP endpoints are
    dependencies, not code of the repository.  Each operation the scripts
    call is a field below.  A method that works on a [Psbt] in place gives
    back the object as the call left it, whether it returned or threw. *)

(** [bitcoin.payments.p2wpkh({ pubkey, network })] *)
Record Payment : Type := {
  address : string;
  output : JS.Buffer
}.

(** The [signer] object handed to [psbt.signInput]. *)
Record Signer : Type := {
  signer_publicKey : JS.Buffer;
  sign : JS.Buffer -> exc JS.Buffer
}.

(** The callback handed to [psbt.validateSignaturesOfAllInputs]. *)
Definition Validator : Type := JS.Buffer -> JS.Buffer -> JS.Buffer -> bool.

(** [input.witnessUtxo] *)
Record WitnessUtxo : Type := {
  value : Z;
  script : JS.Buffer
}.

(** An element of [psbt.data.inputs], as far as the scripts read it. *)
Record PsbtInput : Type := {
  witnessUtxo : option WitnessUtxo
}.

Record BitcoinJS : Type := {
  Psbt : Type;
  KeyPair : Type;
  Transaction : Type;
  (* ecpair *)
  ECPair_fromWIF : string -> network -> exc KeyPair;
  publicKey : KeyPair -> JS.Buffer;
  privateKey : KeyPair -> JS.Buffer;
  (* tiny-secp256k1 *)
  ecc_sign : JS.Buffer -> JS.Buffer -> exc JS.Buffer;
  ecc_verify : JS.Buffer -> JS.Buffer -> JS.Buffer -> exc bool;
  (* bitcoinjs-lib *)
  SIGHASH_ALL : Z;
  payments_p2wpkh : JS.Buffer -> network -> exc Payment;
  address_toOutputScript : string -> network -> exc JS.Buffer;
  address_fromOutputScript : JS.Buffer -> network -> exc string;
  Psbt_fromBase64 : JS.maybe string -> option network -> exc Psbt;
  inputCount : Psbt -> nat;
  data_inputs : Psbt -> list PsbtInput;
  signInput : Psbt -> nat -> Signer -> list Z -> Psbt * exc unit;
  validateSignaturesOfAllInputs : Psbt -> Validator -> Psbt * exc bool;
  finalizeAllInputs : Psbt -> Psbt * exc unit;
  extractTransaction : Psbt -> Psbt * exc Transaction;
  toBase64 : Psbt -> string;
  toHex : Transaction -> string;
  getId : Transaction -> string
}.

(** A [fetch] response.  [json] is the parsed body, taken to be an array of
    objects as the explorer's API gives it, or the error of parsing it.  (A
    body that is no array, or an array with an element that is no object,
    is outside this type: there [utxos.map] throws a [TypeError] and no body
    is printed.) *)
Record Response : Type := {
  ok : bool;
  status : nat;
  statusText : string;
  text : exc string;
  json : exc (list (gmap string JS.value))
}.

(** The HTTP endpoints: [fetch(url)] and [fetch(url, { method: 'POST', body })]. *)
Record World : Type := {
  fetch_get : string -> exc Response;
  fetch_post : string -> string -> exc Response
}.

(** The [i]-th command-line argument when it is there and not empty. *)
Definition truthy (s : JS.maybe string) : option string :=
  match s with
  | Some s => if String.eqb s "" then None else Some s
  | None => None
  end.

(** ** sign_and_broadcast.js *)

Module SignAndBroadcast.

(** [getNetwork(name)].  Each branch returns the library's property as the
    source names it, defined or not (see [network]). *)
Definition getNetwork (name : JS.maybe string) : exc network :=
  let n := JS.toLowerCase (JS.or_empty name) in
  if String.eqb n "mainnet" || String.eqb n "bitcoin" then Ok networks_bitcoin
  else if String.eqb n "testnet" then Ok networks_testnet
  else if String.eqb n "signet" then Ok networks_signet
  else if String.eqb n "regtest" then Ok networks_regtest
  else Thrown ("Unknown network: " +:+ JS.template name).

(** [broadcastUrl(name)] *)
Definition broadcastUrl (name : JS.maybe string) : exc string :=
  let n := JS.toLowerCase (JS.or_empty name) in
  if String.eqb n "mainnet" || String.eqb n "bitcoin" then Ok "https://blockstream.info/api/tx"
  else if String.eqb n "testnet" then Ok "https://blockstream.info/testnet/api/tx"
  else if String.eqb n "signet" then Ok "https://mempool.space/signet/api/tx"
  else if String.eqb n "regtest" then Thrown "No public broadcaster for regtest."
  else Thrown ("Unknown network: " +:+ JS.template name).

Definition usage : string :=
  "Usage: node sign_and_broadcast.js <NETWORK> <WIF> " +:+ JS.dquote +:+ "<PSBT_BASE64>" +:+ JS.dquote.

Definition no_inputs_signed : string :=
  "No inputs were signed. Common causes:" +:+ JS.nl +:+
  "- UTXO scriptPubKey does not match your WIF’s address (wrong key)" +:+ JS.nl +:+
  "- Network mismatch (testnet vs mainnet)" +:+ JS.nl +:+
  "- Input type mismatch (Taproot vs P2WPKH)" +:+ JS.nl +:+
  "- Missing witnessUtxo/nonWitnessUtxo in PSBT".

Section Script.

Context (lib : BitcoinJS) (world : World).

(** The custom signer (lines 70-73): [ecc.sign(hash, keyPair.privateKey)],
    with no third argument. *)
Definition signer (keyPair : KeyPair lib) : Signer :=
  {| signer_publicKey := publicKey lib keyPair;
     sign := fun hash => ecc_sign lib hash (privateKey lib keyPair) |}.

(** The validator callback (lines 95-98): [ecc.verify], and [false] when it
    throws. *)
Definition validator : Validator :=
  fun pubkey msghash signature =>
    match ecc_verify lib msghash pubkey signature with
    | Ok b => b
    | Thrown _ => false
    end.

(** The signing loop (lines 75-83).  [psbt.inputCount] is read again before
    every iteration; [fuel] bounds the number of iterations. *)
Fixpoint sign_loop (fuel : nat) (s : Signer) (i signed : nat) (psbt : Psbt lib)
  : M (Psbt lib * nat) :=
  match fuel with
  | O => out_of_fuel
  | S fuel =>
      if (i <? inputCount lib psbt)%nat then
        let r := signInput lib psbt i s [SIGHASH_ALL lib] in
        match snd r with
        | Ok _ =>
            (emit (external (signInput_called i false)) ;;
             sign_loop fuel s (S i) (S signed) (fst r))%script
        | Thrown message =>
            (emit (external (signInput_called i true)) ;;
             emit (console_log ("signInput(" +:+ pretty i +:+ ") failed: " +:+ message)) ;;
             sign_loop fuel s (S i) signed (fst r))%script
        end
      else ret (psbt, signed)
  end.

(** Lines 75-92: the loop, then the [signed === 0] check. *)
Definition sign_all_inputs (fuel : nat) (s : Signer) (psbt : Psbt lib)
  : M (Psbt lib * nat) :=
  (r <- sign_loop fuel s 0 0 psbt ;;
   if (snd r =? 0)%nat then
     emit (console_error no_inputs_signed) ;; exit 2
   else ret r)%script.

(** Lines 100-102. *)
Definition validate (psbt : Psbt lib) : M (Psbt lib) :=
  let r := validateSignaturesOfAllInputs lib psbt validator in
  (emit (external (validateSignaturesOfAllInputs_called (snd r))) ;;
   valid <- lift (snd r) ;;
   if negb valid then throw "Signature validation failed"
   else ret (fst r))%script.

(** Line 104. *)
Definition finalize (psbt : Psbt lib) : M (Psbt lib) :=
  let r := finalizeAllInputs lib psbt in
  (emit (external (finalizeAllInputs_called (is_thrown (snd r)))) ;;
   lift (snd r) ;;
   ret (fst r))%script.

(** Lines 106-111: extraction and the printed result. *)
Definition extract (psbt : Psbt lib) : M string :=
  let r := extractTransaction lib psbt in
  (emit (external (extractTransaction_called (is_thrown (snd r)))) ;;
   tx <- lift (snd r) ;;
   let txHex := toHex lib tx in
   let txid := getId lib tx in
   emit (console_log (JS.nl +:+ "Signed TX:")) ;;
   emit (print_signed_tx {| signed_txid := txid;
                            signed_hex := txHex;
                            signed_psbt_base64 := toBase64 lib (fst r) |}) ;;
   ret txHex)%script.

(** Lines 113-129. *)
Definition broadcast (netArg txHex : string) : M unit :=
  (url <- lift (broadcastUrl (Some netArg)) ;;
   emit (external (http_post url txHex)) ;;
   resp <- lift (fetch_post world url txHex) ;;
   body <- lift (text resp) ;;
   if negb (ok resp) then
     emit (console_error (JS.nl +:+ "Broadcast failed: HTTP " +:+ pretty (status resp))) ;;
     emit (console_error body) ;;
     exit 3
   else
     emit (console_log (JS.nl +:+ "Broadcast success!")) ;;
     emit (console_log ("Returned: " +:+ JS.trim body)))%script.

(** Lines 69-129: what happens to a loaded PSBT. *)
Definition session (fuel : nat) (netArg : string) (keyPair : KeyPair lib) (psbt : Psbt lib)
  : M unit :=
  (r <- sign_all_inputs fuel (signer keyPair) psbt ;;
   psbt <- validate (fst r) ;;
   psbt <- finalize psbt ;;
   txHex <- extract psbt ;;
   broadcast netArg txHex)%script.

(** The body of the [try] block (lines 54-129). *)
Definition try_block (fuel : nat) (argv : list string) : M unit :=
  match truthy (argv !! 2%nat), truthy (argv !! 3%nat), truthy (argv !! 4%nat) with
  | Some netArg, Some wif, Some psbtB64 =>
      (net <- lift (getNetwork (Some netArg)) ;;
       keyPair <- lift (ECPair_fromWIF lib wif net) ;;
       myP2WPKH <- lift (payments_p2wpkh lib (publicKey lib keyPair) net) ;;
       emit (console_log ("WIF-derived address (p2wpkh): " +:+ address myP2WPKH)) ;;
       psbt <- lift (Psbt_fromBase64 lib (Some psbtB64) (Some net)) ;;
       session fuel netArg keyPair psbt)%script
  | _, _, _ =>
      (emit (console_error usage) ;; exit 1)%script
  end.

(** The whole script: the [try] block and its [catch] (lines 52-134). *)
Definition main (fuel : nat) (argv : list string) : M unit :=
  try_catch (try_block fuel argv)
    (fun message => emit (console_error ("Error: " +:+ message)) ;; exit 1)%script.

End Script.

End SignAndBroadcast.

(** ** fetch_utxos_and_build.js *)

Module FetchUtxosAndBuild.

Definition usage : string :=
  "Usage: node fetch_utxos_and_build.js <NETWORK> <WIF> <TO_ADDRESS> <AMOUNT_BTC> <FEE_RATE_SAT_VB>".

(** Lines 37-39: the network ternary. *)
Definition select_network (netArg : string) : network :=
  if String.eqb (JS.toLowerCase netArg) "testnet" then networks_testnet
  else networks_bitcoin.

(** Lines 51-53. *)
Definition baseUrl (net : network) : string :=
  if decide (net = networks_testnet) then "https://blockstream.info/testnet/api"
  else "https://blockstream.info/api".

Section Script.

Context (lib : BitcoinJS) (world : World).

(** [getP2WPKHScriptPubKeyHex(address, network)] *)
Definition getP2WPKHScriptPubKeyHex (addr : string) (net : network) : exc string :=
  match address_toOutputScript lib addr net with
  | Ok payment => Ok (JS.toHexString payment)
  | Thrown message => Thrown message
  end.

(** The arrow function of [utxos.map] (lines 73-79). *)
Definition to_descriptor (fromAddress : string) (net : network) (u : gmap string JS.value)
  : M utxo_descriptor :=
  (script_hex <- lift (getP2WPKHScriptPubKeyHex fromAddress net) ;;
   ret {| txid := JS.prop u "txid";
          vout := JS.prop u "vout";
          amount_sats := JS.prop u "value";
          script_pubkey_hex := script_hex;
          sequence := JS.null |})%script.

(** [utxos.map(...)]: element by element, in order; the first throw ends it. *)
Fixpoint map_descriptors (fromAddress : string) (net : network)
    (us : list (gmap string JS.value)) : M (list utxo_descriptor) :=
  match us with
  | [] => ret []
  | u :: us =>
      (d <- to_descriptor fromAddress net u ;;
       ds <- map_descriptors fromAddress net us ;;
       ret (d :: ds))%script
  end.

(** Lines 60-82: from the fetched list to the printed body. *)
Definition build (netArg toAddress amountBtc feeRate fromAddress : string) (net : network)
    (us : list (gmap string JS.value)) : M unit :=
  if (length us =? 0)%nat then
    (emit (console_error "No UTXOs found for this address.") ;; exit 1)%script
  else
    (ds <- map_descriptors fromAddress net us ;;
     emit (print_transfer_input
             {| network_name := JS.toLowerCase netArg;
                to_address := toAddress;
                amount_btc := amountBtc;
                change_address := fromAddress;
                fee_rate_sat_per_vb := JS.parseInt10 feeRate;
                assume_taproot := false;
                utxos := ds |}))%script.

(** Lines 37-47: the address of the key, on the selected network. *)
Definition from_address (netArg wif : string) : exc string :=
  let net := select_network netArg in
  match ECPair_fromWIF lib wif net with
  | Ok keyPair =>
      match payments_p2wpkh lib (publicKey lib keyPair) net with
      | Ok payment => Ok (address payment)
      | Thrown message => Thrown message
      end
  | Thrown message => Thrown message
  end.

(** [main()] (lines 30-83). *)
Definition main (argv : list string) : M unit :=
  match truthy (argv !! 2%nat), truthy (argv !! 3%nat), truthy (argv !! 4%nat),
        truthy (argv !! 5%nat), truthy (argv !! 6%nat) with
  | Some netArg, Some wif, Some toAddress, Some amountBtc, Some feeRate =>
      let net := select_network netArg in
      (fromAddress <- lift (from_address netArg wif) ;;
       emit (console_log ("Derived address from WIF: " +:+ fromAddress)) ;;
       let url := baseUrl net +:+ "/address/" +:+ fromAddress +:+ "/utxo" in
       emit (external (http_get url)) ;;
       utxosRes <- lift (fetch_get world url) ;;
       if negb (ok utxosRes) then
         emit (console_error ("Error fetching UTXOs: " +:+ statusText utxosRes)) ;;
         exit 1
       else
         us <- lift (json utxosRes) ;;
         build netArg toAddress amountBtc feeRate fromAddress net us)%script
  | _, _, _, _, _ =>
      (emit (console_error usage) ;; exit 1)%script
  end.

(** [main().catch(console.error)] (line 90).  ([console.error] prints the
    error object, name and stack included; the event keeps its message.) *)
Definition run (argv : list string) : M unit :=
  try_catch (main argv) (fun message => emit (console_error message)).

End Script.

End FetchUtxosAndBuild.

(** ** inspect_psbt.js *)

Module InspectPsbt.

Section Script.

Context (lib : BitcoinJS).

(** The callback of [psbt.data.inputs.forEach] (lines 22-31). *)
Definition print_input (idx : nat) (input : PsbtInput) : M unit :=
  (emit (console_log ("Input " +:+ pretty idx +:+ ":")) ;;
   match witnessUtxo input with
   | Some utxo =>
       emit (console_log ("  Value (sats): " +:+ pretty (value utxo))) ;;
       emit (console_log ("  ScriptPubKey hex: " +:+ JS.toHexString (script utxo))) ;;
       emit (external (fromOutputScript_called (script utxo) networks_testnet)) ;;
       addr <- lift (address_fromOutputScript lib (script utxo) networks_testnet) ;;
       emit (console_log ("  Address: " +:+ addr))
   | None =>
       emit (console_log "  Missing witnessUtxo!")
   end)%script.

(** [inputs.forEach((input, idx) => ...)], from index [idx] on. *)
Fixpoint for_each (idx : nat) (inputs : list PsbtInput) : M unit :=
  match inputs with
  | [] => ret tt
  | input :: inputs =>
      (print_input idx input ;; for_each (S idx) inputs)%script
  end.

(** The whole script (lines 18-31); an error that nothing catches ends the
    process. *)
Definition main (argv : list string) : M unit :=
  (psbt <- lift (Psbt_fromBase64 lib (argv !! 2%nat) None) ;;
   for_each 0 (data_inputs lib psbt))%script.

End Script.

End InspectPsbt.

(** ** A small instance of the libraries, to run the scripts on

    Keys are byte strings; the public key is the private key reversed, a
    signature is the private key followed by the digest, a P2WPKH script is
    [00 14] followed by the public key, and an address is the network's
    prefix followed by the public key.  A PSBT is the list of its inputs. *)

Module Fixture.

Record input : Type := {
  prevout : option WitnessUtxo;
  partialSig : option (JS.Buffer * JS.Buffer);
  finalized : bool
}.

Definition hrp (net : network) : string :=
  match net with
  | networks_bitcoin => "bc1q"
  | networks_testnet => "tb1q"
  | networks_signet => "tb1q"
  | networks_regtest => "bcrt1q"
  end.

Definition wif_version (net : network) : ascii :=
  match net with
  | networks_bitcoin => "K"%char
  | _ => "c"%char
  end.

Definition fromWIF (wif : string) (net : network) : exc JS.Buffer :=
  match wif with
  | String c key =>
      if Ascii.eqb c (wif_version net) then Ok (list_byte_of_string key)
      else Thrown "Invalid network version"
  | EmptyString => Thrown "Invalid checksum"
  end.

Definition p2wpkh_script (pubkey : JS.Buffer) : JS.Buffer := x00 :: x14 :: pubkey.

Definition p2wpkh (pubkey : JS.Buffer) (net : network) : exc Payment :=
  Ok {| address := hrp net +:+ string_of_list_byte pubkey;
        output := p2wpkh_script pubkey |}.

Fixpoint strip_prefix (p s : string) : option string :=
  match p, s with
  | EmptyString, _ => Some s
  | String a p, String b s => if Ascii.eqb a b then strip_prefix p s else None
  | String _ _, EmptyString => None
  end.

Definition toOutputScript (addr : string) (net : network) : exc JS.Buffer :=
  match strip_prefix (hrp net) addr with
  | Some key => Ok (p2wpkh_script (list_byte_of_string key))
  | None => Thrown (addr +:+ " has an invalid prefix")
  end.

Definition fromOutputScript (s : JS.Buffer) (net : network) : exc string :=
  match s with
  | x00 :: x14 :: key => Ok (hrp net +:+ string_of_list_byte key)
  | _ => Thrown (JS.toHexString s +:+ " has no matching Address")
  end.

Definition fx_sign (hash d : JS.Buffer) : exc JS.Buffer := Ok (d ++ hash)%list.

Definition fx_verify (hash pubkey signature : JS.Buffer) : exc bool :=
  Ok (bool_decide (signature = (rev pubkey ++ hash)%list)).

(** The digest an input is signed over: here, its previous output's script. *)
Definition sighash (i : input) : option JS.Buffer := script <$> prevout i.

Definition fx_signInput (p : list input) (i : nat) (s : Signer) (sighashTypes : list Z)
  : list input * exc unit :=
  match p !! i with
  | None => (p, Thrown ("No input #" +:+ pretty i))
  | Some inp =>
      match prevout inp with
      | None => (p, Thrown "Need a Utxo input item for signing")
      | Some u =>
          if bool_decide (script u = p2wpkh_script (signer_publicKey s)) then
            match sign s (script u) with
            | Ok sg =>
                (<[i := {| prevout := prevout inp;
                           partialSig := Some (signer_publicKey s, sg);
                           finalized := finalized inp |}]> p, Ok tt)
            | Thrown m => (p, Thrown m)
            end
          else (p, Thrown ("Can not sign for this input with the key " +:+
                           JS.toHexString (signer_publicKey s)))
      end
  end.

Definition signature_ok (v : Validator) (inp : input) : bool :=
  match partialSig inp, sighash inp with
  | Some (pubkey, sg), Some h => v pubkey h sg
  | Some _, None => false
  | None, _ => true
  end.

Definition fx_validate (p : list input) (v : Validator)
  : list input * exc bool :=
  if forallb (fun inp => bool_decide (partialSig inp = None)) p then
    (p, Thrown "No signatures to validate")
  else (p, Ok (forallb (signature_ok v) p)).

Definition fx_finalizeAll (p : list input) : list input * exc unit :=
  if forallb (fun inp => bool_decide (partialSig inp <> None)) p then
    (map (fun inp => {| prevout := prevout inp;
                        partialSig := partialSig inp;
                        finalized := true |}) p, Ok tt)
  else (p, Thrown "Can not finalize input").

Definition fx_extract (p : list input) : list input * exc (list input) :=
  if forallb finalized p then (p, Ok p) else (p, Thrown "Not finalized").

Definition serialize (p : list input) : string :=
  String.concat "|" (map (fun inp => from_option (fun u => JS.toHexString (script u)) "" (prevout inp)) p).

(** The library in which the string [b64] decodes to the PSBT [p0]. *)
Definition lib (b64 : string) (p0 : list input) : BitcoinJS :=
  {| Psbt := list input;
     KeyPair := JS.Buffer;
     Transaction := list input;
     ECPair_fromWIF := fromWIF;
     publicKey := fun d => rev d;
     privateKey := fun d => d;
     ecc_sign := fx_sign;
     ecc_verify := fx_verify;
     SIGHASH_ALL := 1;
     payments_p2wpkh := p2wpkh;
     address_toOutputScript := toOutputScript;
     address_fromOutputScript := fromOutputScript;
     Psbt_fromBase64 := fun s _ =>
       if bool_decide (s = Some b64) then Ok p0
       else Thrown "Format Error: Invalid Magic Number";
     inputCount := fun p => length p;
     data_inputs := map (fun inp => {| witnessUtxo := prevout inp |});
     signInput := fx_signInput;
     validateSignaturesOfAllInputs := fx_validate;
     finalizeAllInputs := fx_finalizeAll;
     extractTransaction := fx_extract;
     toBase64 := fun p => "signed:" +:+ serialize p;
     toHex := serialize;
     getId := fun p => "txid:" +:+ serialize p |}.

(** An explorer that answers every query with the list [us], and a
    broadcaster that accepts every transaction. *)
Definition world (us : list (gmap string JS.value)) : World :=
  {| fetch_get := fun _ =>
       Ok {| ok := true; status := 200; statusText := "OK";
             text := Ok ""; json := Ok us |};
     fetch_post := fun _ body =>
       Ok {| ok := true; status := 200; statusText := "OK";
             text := Ok ("accepted:" +:+ body); json := Thrown "Unexpected token" |} |}.

(** An unsigned input locked to the public key [pubkey]. *)
Definition owned_by (pubkey : JS.Buffer) (sats : Z) : input :=
  {| prevout := Some {| value := sats; script := p2wpkh_script pubkey |};
     partialSig := None;
     finalized := false |}.

(** Two keys, by their public parts; [wif_a] is the testnet WIF of the first. *)
Definition pub_a : JS.Buffer := [x61; x62].
Definition pub_b : JS.Buffer := [x79; x7a].
Definition wif_a : string := "cba".

Definition b64 : string := "cHNidP8B".

(** Input 0 is ours and unsigned; input 1 belongs to the other key and
    carries a signature that does not verify. *)
Definition psbt_bad_sig : list input :=
  [ owned_by pub_a 20000;
    {| prevout := Some {| value := 5000; script := p2wpkh_script pub_b |};
       partialSig := Some (pub_b, [x00]);
       finalized := false |} ].

(** Inputs 0 and 2 are ours, input 1 is not. *)
Definition psbt_mixed : list input :=
  [ owned_by pub_a 20000; owned_by pub_b 7000; owned_by pub_a 3000 ].

(** Input [i] of [p] is locked to the public key [pubkey]. *)
Definition locked_to (pubkey : JS.Buffer) (p : list input) (i : nat) : bool :=
  match p !! i with
  | Some inp => bool_decide (script <$> prevout inp = Some (p2wpkh_script pubkey))
  | None => false
  end.

(** [p] has the previous outputs of [p0], input by input. *)
Definition same_prevouts (p0 p : list input) : Prop :=
  map prevout p = map prevout p0.

Definition argv_sign : list string :=
  ["node"; "sign_and_broadcast.js"; "testnet"; wif_a; b64].

Definition argv_build : list string :=
  ["node"; "fetch_utxos_and_build.js"; "testnet"; wif_a; "tb1qdest"; "0.00009"; "5"].

(** One input of ours: the run goes all the way to the broadcast. *)
Definition psbt_single : list input := [ owned_by pub_a 20000 ].

(** An input whose script is no P2WPKH script, between two that are. *)
Definition psbt_odd_script : list input :=
  [ owned_by pub_a 20000;
    {| prevout := Some {| value := 1; script := [x6a] |};
       partialSig := None; finalized := false |};
    owned_by pub_b 7000 ].

(** An explorer answer whose entry also carries a script of its own. *)
Definition utxo_1 : gmap string JS.value :=
  {[ "txid" := JS.str "ab12"; "vout" := JS.number 1; "value" := JS.number 20000;
     "scriptpubkey" := JS.str "0014ffff" ]}.

End Fixture.

(** ** Reading a trace *)

(** The events of the signing loop: its calls and its console lines. *)
Definition signing_event (e : event) : bool :=
  match e with
  | external (signInput_called _ _) => true
  | console_log _ => true
  | console_error _ => true
  | _ => false
  end.

(** A call of [validateSignaturesOfAllInputs], whatever it gave. *)
Definition validation_event (e : event) : bool :=
  match e with
  | external (validateSignaturesOfAllInputs_called _) => true
  | _ => false
  end.

(** What the script does only once validation has passed: finalization,
    extraction, the printed transaction, the broadcast. *)
Definition post_validation_event (e : event) : bool :=
  match e with
  | external (finalizeAllInputs_called _) => true
  | external (extractTransaction_called _) => true
  | external (http_post _ _) => true
  | print_signed_tx _ => true
  | _ => false
  end.

(** The events of the broadcast step. *)
Definition broadcast_event (e : event) : bool :=
  match e with
  | external (http_post _ _) => true
  | console_log _ => true
  | console_error _ => true
  | _ => false
  end.

(** What comes after the signing events in a run of sign_and_broadcast.js,
    and how the [try] block ends: the steps follow one another, and each one
    that fails is the last. *)
Inductive pipeline_tail : list event -> ending unit -> Prop :=
| stops_before_validation (e : ending unit) :
    e <> Return tt -> pipeline_tail [] e
| stops_at_validation (r : exc bool) (message : string) :
    r <> Ok true ->
    pipeline_tail [external (validateSignaturesOfAllInputs_called r)] (Throw message)
| stops_at_finalization (message : string) :
    pipeline_tail
      [external (validateSignaturesOfAllInputs_called (Ok true));
       external (finalizeAllInputs_called true)] (Throw message)
| stops_at_extraction (message : string) :
    pipeline_tail
      [external (validateSignaturesOfAllInputs_called (Ok true));
       external (finalizeAllInputs_called false);
       external (extractTransaction_called true)] (Throw message)
| reaches_broadcast (tx : signed_tx) (tr : list event) (e : ending unit) :
    Forall broadcast_event tr ->
    pipeline_tail
      (external (validateSignaturesOfAllInputs_called (Ok true)) ::
       external (finalizeAllInputs_called false) ::
       external (extractTransaction_called false) ::
       console_log (JS.nl +:+ "Signed TX:") ::
       print_signed_tx tx :: tr) e.

(** The [signInput] calls of a trace: index, and whether the call threw. *)
Fixpoint attempts (tr : list event) : list (nat * bool) :=
  match tr with
  | [] => []
  | external (signInput_called i threw) :: tr => (i, threw) :: attempts tr
  | _ :: tr => attempts tr
  end.

(** The number of [signInput] calls of a trace that returned. *)
Definition successes (tr : list event) : nat :=
  length (List.filter (fun a => negb (snd a)) (attempts tr)).

(** Input [i] is reported as skipped on the console. *)
Definition skip_logged (tr : list event) (i : nat) : Prop :=
  exists message, console_log ("signInput(" +:+ pretty i +:+ ") failed: " +:+ message) ∈ tr.

(** An address decoding that names a network other than testnet. *)
Definition decodes_off_testnet (e : event) : bool :=
  match e with
  | external (fromOutputScript_called _ net) => negb (bool_decide (net = networks_testnet))
  | _ => false
  end.

(** A printed /build_transfer body. *)
Definition body_event (e : event) : bool :=
  match e with
  | print_transfer_input _ => true
  | _ => false
  end.

(** The four network identifiers of the data model, and the names
    [getNetwork] does not reject. *)
Definition four_identifiers : list string := ["mainnet"; "testnet"; "signet"; "regtest"].
Definition resolved_names : list string := ["mainnet"; "bitcoin"; "testnet"; "signet"; "regtest"].

(** What a descriptor must be, for the UTXO [u] and the owner's script. *)
Definition describes (owner_script : JS.Buffer) (u : gmap string JS.value) (d : utxo_descriptor) : Prop :=
  txid d = JS.prop u "txid" /\
  vout d = JS.prop u "vout" /\
  amount_sats d = JS.prop u "value" /\
  script_pubkey_hex d = JS.toHexString owner_script /\
  sequence d = JS.null.

(** The HTTP requests of a trace, in order. *)
Fixpoint posts (tr : list event) : list (string * string) :=
  match tr with
  | [] => []
  | external (http_post url body) :: tr => (url, body) :: posts tr
  | _ :: tr => posts tr
  end.

Fixpoint gets (tr : list event) : list string :=
  match tr with
  | [] => []
  | external (http_get url) :: tr => url :: gets tr
  | _ :: tr => gets tr
  end.

(** The bodies and the transactions a trace prints, in order. *)
Fixpoint bodies (tr : list event) : list transfer_input :=
  match tr with
  | [] => []
  | print_transfer_input body :: tr => body :: bodies tr
  | _ :: tr => bodies tr
  end.

Fixpoint printed_txs (tr : list event) : list signed_tx :=
  match tr with
  | [] => []
  | print_signed_tx tx :: tr => tx :: printed_txs tr
  | _ :: tr => printed_txs tr
  end.

(** The address decodings of a trace: script and network, in order. *)
Fixpoint decode_calls (tr : list event) : list (JS.Buffer * network) :=
  match tr with
  | [] => []
  | external (fromOutputScript_called s net) :: tr => (s, net) :: decode_calls tr
  | _ :: tr => decode_calls tr
  end.

(** The scripts of the inputs that carry a [witnessUtxo], in input order. *)
Definition witness_scripts (inputs : list PsbtInput) : list JS.Buffer :=
  omap (fun input => script <$> witnessUtxo input) inputs.

(** The ways the broadcast step of sign_and_broadcast.js (lines 113-129)
    can go, for the selector [netArg] and the transaction [hex]. *)
Inductive broadcast_run (world : World) (netArg hex : string)
  : list event -> ending unit -> Prop :=
| broadcast_without_url (message : string) :
    SignAndBroadcast.broadcastUrl (Some netArg) = Thrown message ->
    broadcast_run world netArg hex [] (Throw message)
| broadcast_request_fails (url message : string) :
    SignAndBroadcast.broadcastUrl (Some netArg) = Ok url ->
    (fetch_post world url hex = Thrown message \/
     exists resp, fetch_post world url hex = Ok resp /\ text resp = Thrown message) ->
    broadcast_run world netArg hex [external (http_post url hex)] (Throw message)
| broadcast_rejected (url : string) (resp : Response) (body : string) :
    SignAndBroadcast.broadcastUrl (Some netArg) = Ok url ->
    fetch_post world url hex = Ok resp -> text resp = Ok body -> ok resp = false ->
    broadcast_run world netArg hex
      [external (http_post url hex);
       console_error (JS.nl +:+ "Broadcast failed: HTTP " +:+ pretty (status resp));
       console_error body] (Exit 3)
| broadcast_accepted (url : string) (resp : Response) (body : string) :
    SignAndBroadcast.broadcastUrl (Some netArg) = Ok url ->
    fetch_post world url hex = Ok resp -> text resp = Ok body -> ok resp = true ->
    broadcast_run world netArg hex
      [external (http_post url hex);
       console_log (JS.nl +:+ "Broadcast success!");
       console_log ("Returned: " +:+ JS.trim body)] (Return tt).

(** The ways a signing session (lines 69-129) can go: the signing events
    [tr], then the steps in their order, each failure being the last. *)
Inductive session_run (world : World) (netArg : string)
  : list event -> ending unit -> Prop :=
| session_stops_unsigned (tr : list event) :
    Forall signing_event tr -> successes tr = 0%nat ->
    session_run world netArg tr (Exit 2)
| session_stops_out_of_fuel (tr : list event) :
    Forall signing_event tr ->
    session_run world netArg tr OutOfFuel
| session_stops_validation_false (tr : list event) :
    Forall signing_event tr -> (0 < successes tr)%nat ->
    session_run world netArg
      (tr ++ [external (validateSignaturesOfAllInputs_called (Ok false))])
      (Throw "Signature validation failed")
| session_stops_validation_throws (tr : list event) (message : string) :
    Forall signing_event tr -> (0 < successes tr)%nat ->
    session_run world netArg
      (tr ++ [external (validateSignaturesOfAllInputs_called (Thrown message))])
      (Throw message)
| session_stops_finalization (tr : list event) (message : string) :
    Forall signing_event tr -> (0 < successes tr)%nat ->
    session_run world netArg
      (tr ++ [external (validateSignaturesOfAllInputs_called (Ok true));
              external (finalizeAllInputs_called true)])
      (Throw message)
| session_stops_extraction (tr : list event) (message : string) :
    Forall signing_event tr -> (0 < successes tr)%nat ->
    session_run world netArg
      (tr ++ [external (validateSignaturesOfAllInputs_called (Ok true));
              external (finalizeAllInputs_called false);
              external (extractTransaction_called true)])
      (Throw message)
| session_reaches_broadcast (tr : list event) (tx : signed_tx) (tr' : list event) (e : ending unit) :
    Forall signing_event tr -> (0 < successes tr)%nat ->
    broadcast_run world netArg (signed_hex tx) tr' e ->
    session_run world netArg
      (tr ++ [external (validateSignaturesOfAllInputs_called (Ok true));
              external (finalizeAllInputs_called false);
              external (extractTransaction_called false);
              console_log (JS.nl +:+ "Signed TX:");
              print_signed_tx tx] ++ tr')
      e.

(** The ways the [try] block of sign_and_broadcast.js (lines 54-129) can go,
    [selector] being [process.argv[2]]. *)
Inductive try_block_run (world : World) (selector : JS.maybe string)
  : list event -> ending unit -> Prop :=
| try_block_usage :
    try_block_run world selector [console_error SignAndBroadcast.usage] (Exit 1)
| try_block_setup_throws (tr : list event) (message : string) :
    Forall (fun e => exists line, e = console_log line) tr ->
    try_block_run world selector tr (Throw message)
| try_block_session (netArg addr : string) (tr : list event) (e : ending unit) :
    selector = Some netArg ->
    session_run world netArg tr e ->
    try_block_run world selector
      (console_log ("WIF-derived address (p2wpkh): " +:+ addr) :: tr) e.

(** * Properties *)

(** ** The trace monad *)

Lemma trace_bind {A B} (m : M A) (k : A -> M B) :
  trace (bind m k) =
  (trace m ++ match ended m with Return a => trace (k a) | _ => [] end)%list.
Proof.
  unfold trace, ended, bind. destruct m as [tr []]; simpl; auto using app_nil_r.
Qed.

Lemma ended_bind {A B} (m : M A) (k : A -> M B) :
  ended (bind m k) =
  match ended m with
  | Return a => ended (k a)
  | Throw message => Throw message
  | Exit code => Exit code
  | OutOfFuel => OutOfFuel
  end.
Proof. unfold ended, bind. destruct m as [tr []]; reflexivity. Qed.

Lemma bind_Return {A B} (tr : list event) (a : A) (k : A -> M B) :
  bind (tr, Return a) k = ((tr ++ trace (k a))%list, ended (k a)).
Proof. reflexivity. Qed.

Lemma bind_emit {B} (e : event) (k : unit -> M B) :
  bind (emit e) k = (e :: trace (k tt), ended (k tt)).
Proof. reflexivity. Qed.

Lemma bind_lift_ok {A B} (a : A) (k : A -> M B) : bind (lift (Ok a)) k = k a.
Proof. unfold bind, lift, ret. simpl. destruct (k a); reflexivity. Qed.

Lemma bind_ret {A B} (a : A) (k : A -> M B) : bind (ret a) k = k a.
Proof. exact (bind_lift_ok a k). Qed.

Lemma bind_lift_thrown {A B} (message : string) (k : A -> M B) :
  bind (lift (Thrown message)) k = ([], Throw message).
Proof. reflexivity. Qed.

Lemma Forall_trace_bind {A B} (P : event -> Prop) (m : M A) (k : A -> M B) :
  Forall P (trace m) -> (forall a, Forall P (trace (k a))) -> Forall P (trace (bind m k)).
Proof.
  intros Hm Hk. rewrite trace_bind. apply Forall_app. split; [exact Hm|].
  destruct (ended m); auto.
Qed.

Lemma Forall_trace_lift {A} (P : event -> Prop) (r : exc A) : Forall P (trace (lift r)).
Proof. destruct r; constructor. Qed.

Lemma Forall_trace_emit (P : event -> Prop) (e : event) : P e -> Forall P (trace (emit e)).
Proof. intros. repeat constructor. assumption. Qed.

(** ** Network resolution *)

(** Membership in a list that is written out. *)
Ltac listed := repeat first [apply list_elem_of_here | apply list_elem_of_further].

Ltac unlisted :=
  solve [rewrite ?elem_of_cons, elem_of_nil; intuition (try discriminate; try congruence)].

(** C7, as amended: [getNetwork] lowercases the selector; it gives the
    library's mainnet network for mainnet and bitcoin, its testnet network
    for testnet and its regtest network for regtest, and it throws "Unknown
    network: <name>" exactly for the selectors that are, in lower case, none
    of mainnet, bitcoin, testnet, signet and regtest; it has no default
    branch.  For signet it returns [bitcoin.networks.signet] without
    throwing; what that value is, is the library's business and no part of
    the statement. *)
Theorem getNetwork_resolves_or_throws (name : JS.maybe string) :
  let n := JS.toLowerCase (JS.or_empty name) in
  (SignAndBroadcast.getNetwork name = Ok networks_bitcoin <-> n = "mainnet" \/ n = "bitcoin") /\
  (SignAndBroadcast.getNetwork name = Ok networks_testnet <-> n = "testnet") /\
  (SignAndBroadcast.getNetwork name = Ok networks_regtest <-> n = "regtest") /\
  (SignAndBroadcast.getNetwork name = Thrown ("Unknown network: " +:+ JS.template name) <->
   (n ∉ resolved_names)).
Proof.
  intros n. unfold SignAndBroadcast.getNetwork, resolved_names. fold n.
  rewrite !elem_of_cons, elem_of_nil.
  destruct (String.eqb_spec n "mainnet") as [->|H1]; [cbn; intuition congruence|].
  destruct (String.eqb_spec n "bitcoin") as [->|H2]; [cbn; intuition congruence|].
  destruct (String.eqb_spec n "testnet") as [->|H3]; [cbn; intuition congruence|].
  destruct (String.eqb_spec n "signet") as [->|H4]; [cbn; intuition congruence|].
  destruct (String.eqb_spec n "regtest") as [->|H5]; [cbn; intuition congruence|].
  cbn. intuition congruence.
Qed.

(** C7, as stated, fails: "bitcoin" and "TestNet" are outside the four
    identifiers and resolve all the same. *)
Lemma unlisted_selectors_resolve :
  (("bitcoin" ∉ four_identifiers) /\
   SignAndBroadcast.getNetwork (Some "bitcoin") = Ok networks_bitcoin) /\
  (("TestNet" ∉ four_identifiers) /\
   SignAndBroadcast.getNetwork (Some "TestNet") = Ok networks_testnet).
Proof.
  unfold four_identifiers. repeat split; try reflexivity; unlisted.
Qed.

(** The selector of fetch_utxos_and_build.js is another matter: it knows
    testnet, and takes every other name, known or not, for mainnet. *)
Lemma select_network_two_way (netArg : string) :
  FetchUtxosAndBuild.select_network netArg =
  if decide (JS.toLowerCase netArg = "testnet") then networks_testnet else networks_bitcoin.
Proof.
  unfold FetchUtxosAndBuild.select_network.
  destruct (String.eqb_spec (JS.toLowerCase netArg) "testnet"); case_decide; congruence.
Qed.

Example select_network_signet_and_unknown :
  FetchUtxosAndBuild.select_network "signet" = networks_bitcoin /\
  FetchUtxosAndBuild.select_network "nonet" = networks_bitcoin.
Proof. split; reflexivity. Qed.

(** ** The signing session of sign_and_broadcast.js *)

Section Session.

Context (lib : BitcoinJS) (world : World).

Local Abbreviation sign_loop := (SignAndBroadcast.sign_loop lib).
Local Abbreviation sign_all_inputs := (SignAndBroadcast.sign_all_inputs lib).
Local Abbreviation validate := (SignAndBroadcast.validate lib).
Local Abbreviation finalize := (SignAndBroadcast.finalize lib).
Local Abbreviation extract := (SignAndBroadcast.extract lib).
Local Abbreviation broadcast := (SignAndBroadcast.broadcast world).
Local Abbreviation session := (SignAndBroadcast.session lib world).

Lemma sign_loop_unfold (fuel : nat) (s : Signer) (i signed : nat) (psbt : Psbt lib) :
  sign_loop (S fuel) s i signed psbt =
  if (i <? inputCount lib psbt)%nat then
    let r := signInput lib psbt i s [SIGHASH_ALL lib] in
    match snd r with
    | Ok _ =>
        bind (emit (external (signInput_called i false)))
          (fun _ => sign_loop fuel s (S i) (S signed) (fst r))
    | Thrown message =>
        bind (emit (external (signInput_called i true)))
          (fun _ => bind (emit (console_log ("signInput(" +:+ pretty i +:+ ") failed: " +:+ message)))
             (fun _ => sign_loop fuel s (S i) signed (fst r)))
    end
  else ret (psbt, signed).
Proof. reflexivity. Qed.

Lemma sign_loop_signing (fuel : nat) (s : Signer) :
  forall i signed psbt, Forall signing_event (trace (sign_loop fuel s i signed psbt)).
Proof.
  induction fuel as [|fuel IH]; intros i signed psbt; [constructor|].
  rewrite sign_loop_unfold. destruct (i <? inputCount lib psbt)%nat; [|constructor].
  cbv zeta. destruct (snd (signInput lib psbt i s [SIGHASH_ALL lib])).
  - rewrite bind_emit. constructor; [exact I|apply IH].
  - rewrite !bind_emit. simpl. repeat (constructor; [exact I|]). apply IH.
Qed.

Lemma sign_all_inputs_signing (fuel : nat) (s : Signer) (psbt : Psbt lib) :
  Forall signing_event (trace (sign_all_inputs fuel s psbt)).
Proof.
  apply Forall_trace_bind; [apply sign_loop_signing|].
  intros r. destruct (snd r =? 0)%nat; repeat constructor.
Qed.

(** Whatever the library does, [signed] counts the calls that returned: the
    loop never throws, and the check after it lets a run through only with
    a count above zero. *)
Lemma sign_loop_counts_successes (fuel : nat) (s : Signer) :
  forall i signed psbt,
    match ended (sign_loop fuel s i signed psbt) with
    | Return r => snd r = (signed + successes (trace (sign_loop fuel s i signed psbt)))%nat
    | OutOfFuel => True
    | _ => False
    end.
Proof.
  induction fuel as [|fuel IH]; intros i signed psbt; [exact I|].
  rewrite sign_loop_unfold. destruct (i <? inputCount lib psbt)%nat;
    [|cbn; unfold successes; cbn; lia].
  cbv zeta. destruct (snd (signInput lib psbt i s [SIGHASH_ALL lib])).
  - rewrite bind_emit. cbn [trace ended fst snd].
    specialize (IH (S i) (S signed) (fst (signInput lib psbt i s [SIGHASH_ALL lib]))).
    destruct (ended (sign_loop fuel s (S i) (S signed) _)); auto.
    rewrite IH. unfold successes. cbn. lia.
  - rewrite !bind_emit. cbn [trace ended fst snd].
    specialize (IH (S i) signed (fst (signInput lib psbt i s [SIGHASH_ALL lib]))).
    destruct (ended (sign_loop fuel s (S i) signed _)); auto.
Qed.

Lemma sign_all_inputs_counts_successes (fuel : nat) (s : Signer) (psbt : Psbt lib) :
  match ended (sign_all_inputs fuel s psbt) with
  | Return r =>
      snd r = successes (trace (sign_all_inputs fuel s psbt)) /\ (0 < snd r)%nat
  | Exit code =>
      code = 2 /\ successes (trace (sign_all_inputs fuel s psbt)) = 0%nat
  | Throw _ => False
  | OutOfFuel => True
  end.
Proof.
  unfold SignAndBroadcast.sign_all_inputs.
  pose proof (sign_loop_counts_successes fuel s 0 0 psbt) as H.
  destruct (sign_loop fuel s 0 0 psbt) as [tr [r| | |]]; cbn [trace ended fst snd] in H;
    try (cbn; tauto).
  rewrite bind_Return. destruct (snd r =? 0)%nat eqn:E.
  - apply Nat.eqb_eq in E. cbn [trace ended fst snd emit exit bind app].
    split; [reflexivity|].
    assert (Hs : successes (tr ++ [console_error SignAndBroadcast.no_inputs_signed]) =
                 successes tr).
    { unfold successes. f_equal. f_equal. clear.
      induction tr as [|[| | | |[]] tr IHtr]; cbn; rewrite ?IHtr; reflexivity. }
    rewrite Hs. cbn in H. lia.
  - apply Nat.eqb_neq in E. cbn [trace ended fst snd ret app]. rewrite app_nil_r.
    cbn in H. split; lia.
Qed.

(** The three ways the validation step can go. *)
Lemma validate_cases (psbt : Psbt lib) :
  let r := validateSignaturesOfAllInputs lib psbt (SignAndBroadcast.validator lib) in
  match snd r with
  | Ok true =>
      validate psbt =
      ([external (validateSignaturesOfAllInputs_called (Ok true))], Return (fst r))
  | Ok false =>
      validate psbt =
      ([external (validateSignaturesOfAllInputs_called (Ok false))],
       Throw "Signature validation failed")
  | Thrown message =>
      validate psbt =
      ([external (validateSignaturesOfAllInputs_called (Thrown message))], Throw message)
  end.
Proof.
  intros r. unfold SignAndBroadcast.validate. fold r.
  destruct (snd r) as [[]|]; reflexivity.
Qed.

Lemma finalize_no_validation (psbt : Psbt lib) :
  Forall (fun e => ¬ validation_event e) (trace (finalize psbt)).
Proof.
  unfold SignAndBroadcast.finalize.
  repeat (apply Forall_trace_bind; [|intros]);
    first [apply Forall_trace_lift | apply Forall_trace_emit; auto | constructor].
Qed.

Lemma extract_no_validation (psbt : Psbt lib) :
  Forall (fun e => ¬ validation_event e) (trace (extract psbt)).
Proof.
  unfold SignAndBroadcast.extract.
  repeat (apply Forall_trace_bind; [|intros]);
    first [apply Forall_trace_lift | apply Forall_trace_emit; auto | constructor].
Qed.

Lemma broadcast_no_validation (netArg txHex : string) :
  Forall (fun e => ¬ validation_event e) (trace (broadcast netArg txHex)).
Proof.
  unfold SignAndBroadcast.broadcast.
  repeat (apply Forall_trace_bind; [|intros]);
    try match goal with |- context [if ?b then _ else _] => destruct b end;
    repeat (apply Forall_trace_bind; [|intros]);
    first [apply Forall_trace_lift | apply Forall_trace_emit; auto | constructor].
Qed.

Lemma signing_not_validation (tr : list event) :
  Forall signing_event tr -> Forall (fun e => ¬ validation_event e) tr.
Proof. intros H. eapply Forall_impl; [exact H|]. intros [| | | |[]]; simpl; auto. Qed.

Lemma signing_not_post_validation (tr : list event) :
  Forall signing_event tr -> Forall (fun e => ¬ post_validation_event e) tr.
Proof. intros H. eapply Forall_impl; [exact H|]. intros [| | | |[]]; simpl; auto. Qed.

Lemma no_validation_not_elem (tr : list event) (r : exc bool) :
  Forall (fun e => ¬ validation_event e) tr ->
  external (validateSignaturesOfAllInputs_called r) ∉ tr.
Proof.
  intros H Hin. rewrite Forall_forall in H. exact (H _ Hin I).
Qed.

(** Once [validateSignaturesOfAllInputs] has given [false], the session is
    the signing events, that call, and the thrown error. *)
Lemma session_validation_false (fuel : nat) (netArg : string) (keyPair : KeyPair lib)
    (psbt : Psbt lib) :
  external (validateSignaturesOfAllInputs_called (Ok false)) ∈
    trace (session fuel netArg keyPair psbt) ->
  exists tr, Forall signing_event tr /\
    session fuel netArg keyPair psbt =
    ((tr ++ [external (validateSignaturesOfAllInputs_called (Ok false))])%list,
     Throw "Signature validation failed").
Proof.
  unfold SignAndBroadcast.session.
  pose proof (sign_all_inputs_signing fuel (SignAndBroadcast.signer lib keyPair) psbt) as Hs.
  destruct (sign_all_inputs fuel (SignAndBroadcast.signer lib keyPair) psbt) as [tr e] eqn:E.
  unfold trace in Hs; simpl in Hs.
  assert (Hno : external (validateSignaturesOfAllInputs_called (Ok false)) ∉ tr)
    by (apply no_validation_not_elem, signing_not_validation, Hs).
  intros Hin. destruct e as [r| | |]; try contradiction.
  rewrite bind_Return in Hin |- *. cbn [trace fst] in Hin.
  exists tr. split; [exact Hs|].
  apply elem_of_app in Hin as [Hin|Hin]; [contradiction|].
  pose proof (validate_cases (fst r)) as Hv. cbv zeta in Hv.
  destruct (snd (validateSignaturesOfAllInputs lib (fst r) (SignAndBroadcast.validator lib)))
    as [[]|message]; rewrite Hv in Hin |- *.
  - exfalso. rewrite bind_Return in Hin. cbn [trace fst] in Hin.
    apply elem_of_cons in Hin as [Hin|Hin]; [discriminate|].
    revert Hin. apply no_validation_not_elem.
    apply Forall_trace_bind; [apply finalize_no_validation|]. intros p1.
    apply Forall_trace_bind; [apply extract_no_validation|]. intros txHex.
    apply broadcast_no_validation.
  - reflexivity.
  - exfalso. cbn in Hin.
    apply elem_of_cons in Hin as [Hin|Hin]; [discriminate|]. inversion Hin.
Qed.

End Session.

(** ** The whole of sign_and_broadcast.js *)

Lemma trace_try_catch {A} (m : M A) (handler : string -> M A) :
  trace (try_catch m handler) =
  (trace m ++ match ended m with Throw message => trace (handler message) | _ => [] end)%list.
Proof.
  unfold trace, ended, try_catch. destruct m as [tr []]; simpl; auto using app_nil_r.
Qed.

Lemma try_block_validation_false (lib : BitcoinJS) (world : World) (fuel : nat)
    (argv : list string) :
  external (validateSignaturesOfAllInputs_called (Ok false)) ∈
    trace (SignAndBroadcast.try_block lib world fuel argv) ->
  exists tr, Forall signing_event tr /\
    SignAndBroadcast.try_block lib world fuel argv =
    ((tr ++ [external (validateSignaturesOfAllInputs_called (Ok false))])%list,
     Throw "Signature validation failed").
Proof.
  unfold SignAndBroadcast.try_block.
  destruct (truthy (argv !! 2%nat)) as [netArg|];
    [|cbn; intros H; exfalso; revert H; unlisted].
  destruct (truthy (argv !! 3%nat)) as [wif|];
    [|cbn; intros H; exfalso; revert H; unlisted].
  destruct (truthy (argv !! 4%nat)) as [psbtB64|];
    [|cbn; intros H; exfalso; revert H; unlisted].
  destruct (SignAndBroadcast.getNetwork (Some netArg)) as [net|];
    [rewrite bind_lift_ok|cbn; intros H; inversion H].
  destruct (ECPair_fromWIF lib wif net) as [keyPair|];
    [rewrite bind_lift_ok|cbn; intros H; inversion H].
  destruct (payments_p2wpkh lib (publicKey lib keyPair) net) as [myP2WPKH|];
    [rewrite bind_lift_ok|cbn; intros H; inversion H].
  rewrite bind_emit.
  destruct (Psbt_fromBase64 lib (Some psbtB64) (Some net)) as [psbt|];
    [rewrite bind_lift_ok|cbn; intros H; exfalso; revert H; unlisted].
  cbn [trace fst]. intros H. apply elem_of_cons in H as [H|H]; [discriminate|].
  apply session_validation_false in H as (tr & Htr & ->).
  exists (console_log ("WIF-derived address (p2wpkh): " +:+ address myP2WPKH) :: tr).
  split; [constructor; [exact I|exact Htr]|reflexivity].
Qed.

(** C1: when [validateSignaturesOfAllInputs] gives [false], the script ends
    with exit status 1 after printing "Error: Signature validation failed",
    and its run holds no finalization, no extraction, no printed transaction
    and no broadcast. *)
Theorem validation_failure_blocks_finalization (lib : BitcoinJS) (world : World)
    (fuel : nat) (argv : list string) :
  external (validateSignaturesOfAllInputs_called (Ok false)) ∈
    trace (SignAndBroadcast.main lib world fuel argv) ->
  ended (SignAndBroadcast.main lib world fuel argv) = Exit 1 /\
  last (trace (SignAndBroadcast.main lib world fuel argv)) =
    Some (console_error "Error: Signature validation failed") /\
  Forall (fun e => ¬ post_validation_event e)
    (trace (SignAndBroadcast.main lib world fuel argv)).
Proof.
  unfold SignAndBroadcast.main. intros H.
  assert (Hb : external (validateSignaturesOfAllInputs_called (Ok false)) ∈
               trace (SignAndBroadcast.try_block lib world fuel argv)).
  { rewrite trace_try_catch in H. apply elem_of_app in H as [H|H]; [exact H|].
    exfalso. destruct (ended (SignAndBroadcast.try_block lib world fuel argv));
      revert H; cbn; unlisted. }
  apply try_block_validation_false in Hb as (tr & Htr & ->).
  cbn. split; [reflexivity|]. split.
  - rewrite last_app. reflexivity.
  - rewrite !Forall_app. repeat split;
      [apply signing_not_post_validation, Htr|repeat constructor; simpl; auto..].
Qed.

(** C1 at work: the other party's signature on input 1 does not verify. *)
Lemma validation_failure_blocks_finalization_witness :
  ended (SignAndBroadcast.main (Fixture.lib Fixture.b64 Fixture.psbt_bad_sig)
           (Fixture.world []) 3 Fixture.argv_sign) = Exit 1 /\
  last (trace (SignAndBroadcast.main (Fixture.lib Fixture.b64 Fixture.psbt_bad_sig)
           (Fixture.world []) 3 Fixture.argv_sign)) =
    Some (console_error "Error: Signature validation failed") /\
  Forall (fun e => ¬ post_validation_event e)
    (trace (SignAndBroadcast.main (Fixture.lib Fixture.b64 Fixture.psbt_bad_sig)
           (Fixture.world []) 3 Fixture.argv_sign)).
Proof.
  apply (validation_failure_blocks_finalization
           (Fixture.lib Fixture.b64 Fixture.psbt_bad_sig) (Fixture.world []) 3 Fixture.argv_sign).
  vm_compute. listed.
Defined.

(** ** Skipped and signed inputs

    What [signInput] does is the library's business.  The section states the
    one thing the loop needs from it: on the PSBTs the loop can reach
    ([reachable]), the input count stays [n], and the call throws exactly for
    the inputs that do not match the key ([matches]). *)

Section SigningContract.

Context (lib : BitcoinJS) (s : Signer) (n : nat) (matches : nat -> bool)
        (reachable : Psbt lib -> Prop).

Hypothesis reachable_signInput :
  forall p i, reachable p -> reachable (fst (signInput lib p i s [SIGHASH_ALL lib])).
Hypothesis reachable_inputCount :
  forall p, reachable p -> inputCount lib p = n.
Hypothesis signInput_throws_on_mismatch :
  forall p i, reachable p -> (i < n)%nat ->
    is_thrown (snd (signInput lib p i s [SIGHASH_ALL lib])) = negb (matches i).

Lemma sign_loop_counts (k : nat) :
  forall (fuel i signed : nat) (p : Psbt lib),
    (n - i = k)%nat -> (k < fuel)%nat -> reachable p ->
    exists p',
      ended (SignAndBroadcast.sign_loop lib fuel s i signed p) =
        Return (p', (signed + length (List.filter matches (seq i k)))%nat) /\
      attempts (trace (SignAndBroadcast.sign_loop lib fuel s i signed p)) =
        map (fun j => (j, negb (matches j))) (seq i k) /\
      (forall j, (i <= j < n)%nat -> matches j = false ->
         skip_logged (trace (SignAndBroadcast.sign_loop lib fuel s i signed p)) j).
Proof.
  induction k as [|k IH]; intros fuel i signed p Hk Hfuel Hp;
    (destruct fuel as [|fuel]; [lia|]); rewrite sign_loop_unfold;
    rewrite (reachable_inputCount p Hp).
  - replace (i <? n)%nat with false by (symmetry; apply Nat.ltb_ge; lia).
    exists p. cbn. rewrite Nat.add_0_r. repeat split. intros j Hj. lia.
  - replace (i <? n)%nat with true by (symmetry; apply Nat.ltb_lt; lia).
    cbv zeta.
    pose proof (signInput_throws_on_mismatch p i Hp ltac:(lia)) as Hthrow.
    pose proof (reachable_signInput p i Hp) as Hp'.
    destruct (snd (signInput lib p i s [SIGHASH_ALL lib])) as [[]|message];
      cbn in Hthrow; apply (f_equal negb) in Hthrow; rewrite negb_involutive in Hthrow;
      cbn in Hthrow.
    + destruct (IH fuel (S i) (S signed) _ ltac:(lia) ltac:(lia) Hp') as (p' & He & Ha & Hl).
      exists p'. rewrite !bind_emit. cbn [trace ended fst snd seq List.filter attempts map].
      rewrite <- Hthrow. cbn [negb length]. rewrite He, Ha.
      repeat split; [f_equal; f_equal; lia|].
      intros j Hj Hm. destruct (decide (j = i)) as [->|Hne]; [congruence|].
      destruct (Hl j ltac:(lia) Hm) as [m Hin]. exists m. now apply list_elem_of_further.
    + destruct (IH fuel (S i) signed _ ltac:(lia) ltac:(lia) Hp') as (p' & He & Ha & Hl).
      exists p'. rewrite !bind_emit. cbn [trace ended fst snd seq List.filter attempts map].
      rewrite <- Hthrow. cbn [negb length]. rewrite He, Ha.
      repeat split.
      intros j Hj Hm. destruct (decide (j = i)) as [->|Hne].
      * exists message. apply list_elem_of_further, list_elem_of_here.
      * destruct (Hl j ltac:(lia) Hm) as [m Hin]. exists m.
        now do 2 apply list_elem_of_further.
Qed.

(** C3: the loop tries every input once, in order, and a throwing
    [signInput] stops nothing; the inputs that do not match are reported on
    the console; the count is the number of matching inputs; with a count of
    zero the script prints the "No inputs were signed" text and exits with
    status 2, and otherwise it goes on with that count. *)
Theorem sign_all_inputs_skip_or_fail (fuel : nat) (p0 : Psbt lib) :
  reachable p0 -> (n < fuel)%nat ->
  let run := SignAndBroadcast.sign_all_inputs lib fuel s p0 in
  let signed := length (List.filter matches (seq 0 n)) in
  attempts (trace run) = map (fun i => (i, negb (matches i))) (seq 0 n) /\
  (forall i, (i < n)%nat -> matches i = false -> skip_logged (trace run) i) /\
  (signed = 0%nat ->
     ended run = Exit 2 /\
     last (trace run) = Some (console_error SignAndBroadcast.no_inputs_signed)) /\
  ((0 < signed)%nat -> exists p', ended run = Return (p', signed)).
Proof.
  intros Hp Hfuel run signed. subst run. unfold SignAndBroadcast.sign_all_inputs.
  destruct (sign_loop_counts n fuel 0 0 p0 ltac:(lia) Hfuel Hp) as (p' & He & Ha & Hl).
  fold signed in He. cbn [Nat.add] in He.
  destruct (SignAndBroadcast.sign_loop lib fuel s 0 0 p0) as [tr e].
  cbn [trace ended fst snd] in He, Ha, Hl. subst e. rewrite bind_Return. cbn [snd].
  destruct signed as [|k] eqn:Hsigned; cbn [Nat.eqb].
  - cbn [trace ended fst snd bind emit exit app].
    assert (Hatt : forall l1 l2, attempts (l1 ++ l2) = (attempts l1 ++ attempts l2)%list).
    { induction l1 as [|[| | | |[]] l1 IHl]; intros; cbn; rewrite ?IHl; reflexivity. }
    rewrite Hatt, Ha. cbn [attempts]. rewrite app_nil_r. repeat split.
    + intros i Hi Hm. destruct (Hl i ltac:(lia) Hm) as [m Hin]. exists m.
      apply elem_of_app. now left.
    + apply last_snoc.
    + intros H. lia.
  - cbn [trace ended fst snd]. rewrite app_nil_r. repeat split.
    + exact Ha.
    + intros i Hi Hm. apply Hl; [lia|exact Hm].
    + discriminate.
    + discriminate.
    + intros _. exists p'. reflexivity.
Qed.

End SigningContract.

(** The library instance keeps the contract of [SigningContract], with
    "reachable" read as "has the previous outputs of the loaded PSBT". *)

Section FixtureContract.

Context (b64 : string) (p0 : list Fixture.input) (d : JS.Buffer).

Let s : Signer := SignAndBroadcast.signer (Fixture.lib b64 p0) d.

Lemma fixture_signInput_prevouts (p : list Fixture.input) (i : nat) (types : list Z) :
  Fixture.same_prevouts p0 p ->
  Fixture.same_prevouts p0 (fst (Fixture.fx_signInput p i s types)).
Proof.
  unfold Fixture.same_prevouts, Fixture.fx_signInput. intros <-.
  destruct (p !! i) as [inp|] eqn:Hi; [|reflexivity].
  destruct (Fixture.prevout inp) as [u|] eqn:Hu; [|reflexivity].
  case_bool_decide; [|reflexivity]. cbn.
  change (fmap Fixture.prevout (<[i:=
            {| Fixture.prevout := Some u;
               Fixture.partialSig := Some (rev d, (d ++ script u)%list);
               Fixture.finalized := Fixture.finalized inp |}]> p) =
          fmap Fixture.prevout p).
  rewrite list_fmap_insert. apply list_insert_id.
  rewrite list_lookup_fmap, Hi. cbn. now rewrite Hu.
Qed.

Lemma fixture_inputCount (p : list Fixture.input) :
  Fixture.same_prevouts p0 p -> length p = length p0.
Proof.
  unfold Fixture.same_prevouts. intros H.
  rewrite <- (length_map Fixture.prevout p), H. apply length_map.
Qed.

Lemma fixture_throws_on_mismatch (p : list Fixture.input) (i : nat) (types : list Z) :
  Fixture.same_prevouts p0 p -> (i < length p0)%nat ->
  is_thrown (snd (Fixture.fx_signInput p i s types)) =
  negb (Fixture.locked_to (rev d) p0 i).
Proof.
  intros Hp Hi. pose proof (fixture_inputCount p Hp) as Hlen.
  unfold Fixture.same_prevouts in Hp.
  assert (Hlook : Fixture.prevout <$> p !! i = Fixture.prevout <$> p0 !! i).
  { change (fmap Fixture.prevout p = fmap Fixture.prevout p0) in Hp.
    now rewrite <- !list_lookup_fmap, Hp. }
  unfold Fixture.fx_signInput, Fixture.locked_to.
  destruct (lookup_lt_is_Some_2 p i ltac:(lia)) as [inp Hinp].
  destruct (lookup_lt_is_Some_2 p0 i Hi) as [inp0 Hinp0].
  rewrite Hinp, Hinp0 in *. cbn in Hlook. injection Hlook as Hlook. rewrite <- Hlook.
  destruct (Fixture.prevout inp) as [u|]; [|now rewrite bool_decide_eq_false_2].
  cbn. repeat case_bool_decide; try reflexivity; congruence.
Qed.

End FixtureContract.

(** C3 at work: of three inputs, the first and the third are locked to the
    signer's key; two are signed, the second is reported and skipped. *)
Lemma sign_all_inputs_skip_or_fail_witness :
  let lib := Fixture.lib Fixture.b64 Fixture.psbt_mixed in
  let run := SignAndBroadcast.sign_all_inputs lib 4
               (SignAndBroadcast.signer lib [x62; x61]) Fixture.psbt_mixed in
  attempts (trace run) = [(0, false); (1, true); (2, false)]%nat /\
  skip_logged (trace run) 1 /\
  exists p', ended run = Return (p', 2%nat).
Proof.
  pose proof (sign_all_inputs_skip_or_fail
                (Fixture.lib Fixture.b64 Fixture.psbt_mixed)
                (SignAndBroadcast.signer (Fixture.lib Fixture.b64 Fixture.psbt_mixed) [x62; x61])
                3 (Fixture.locked_to Fixture.pub_a Fixture.psbt_mixed)
                (Fixture.same_prevouts Fixture.psbt_mixed)
                (fun p i => fixture_signInput_prevouts Fixture.b64 Fixture.psbt_mixed [x62; x61] p i _)
                (fixture_inputCount Fixture.psbt_mixed)
                (fun p i => fixture_throws_on_mismatch Fixture.b64 Fixture.psbt_mixed [x62; x61] p i _)
                4 Fixture.psbt_mixed eq_refl ltac:(lia)) as (Ha & Hl & _ & Hs).
  cbv zeta. split; [exact Ha|]. split; [apply Hl; [lia|reflexivity]|].
  apply Hs. vm_compute. lia.
Defined.

(** ** fetch_utxos_and_build.js: the printed body *)

Section Materializer.

Context (lib : BitcoinJS) (world : World).

Local Abbreviation map_descriptors := (FetchUtxosAndBuild.map_descriptors lib).
Local Abbreviation from_address := (FetchUtxosAndBuild.from_address lib).
Local Abbreviation run := (FetchUtxosAndBuild.run lib world).

(** The URL the script queries for the address [a]. *)
Local Abbreviation utxo_url net a :=
  (FetchUtxosAndBuild.baseUrl net +:+ "/address/" +:+ a +:+ "/utxo").

Lemma map_descriptors_silent (a : string) (net : network) (us : list (gmap string JS.value)) :
  trace (map_descriptors a net us) = [].
Proof.
  induction us as [|u us IH]; [reflexivity|].
  cbn [FetchUtxosAndBuild.map_descriptors]. unfold FetchUtxosAndBuild.to_descriptor.
  destruct (FetchUtxosAndBuild.getP2WPKHScriptPubKeyHex lib a net);
    [rewrite bind_lift_ok|reflexivity].
  rewrite bind_ret, trace_bind, IH.
  now destruct (ended (map_descriptors a net us)).
Qed.

Lemma map_descriptors_describes (a : string) (net : network) (owner_script : JS.Buffer) :
  address_toOutputScript lib a net = Ok owner_script ->
  forall us ds, ended (map_descriptors a net us) = Return ds ->
    Forall2 (describes owner_script) us ds.
Proof.
  intros Hscript. induction us as [|u us IH]; intros ds.
  - cbn. intros [= <-]. constructor.
  - cbn [FetchUtxosAndBuild.map_descriptors]. unfold FetchUtxosAndBuild.to_descriptor,
      FetchUtxosAndBuild.getP2WPKHScriptPubKeyHex. rewrite Hscript, bind_lift_ok.
    rewrite bind_ret, ended_bind.
    destruct (ended (map_descriptors a net us)) as [ds'| | |]; try discriminate.
    cbn. intros [= <-].
    constructor; [|apply IH; reflexivity]. repeat split.
Qed.

Lemma map_descriptors_needs_script (a : string) (net : network)
    (us : list (gmap string JS.value)) (ds : list utxo_descriptor) :
  us <> [] -> ended (map_descriptors a net us) = Return ds ->
  exists owner_script, address_toOutputScript lib a net = Ok owner_script.
Proof.
  destruct us as [|u us]; [congruence|]. intros _.
  cbn [FetchUtxosAndBuild.map_descriptors]. unfold FetchUtxosAndBuild.to_descriptor,
    FetchUtxosAndBuild.getP2WPKHScriptPubKeyHex.
  destruct (address_toOutputScript lib a net) as [sc|]; [eauto|discriminate].
Qed.

(** With a script for the address, the mapping goes through, and a list
    that is not empty is printed as a body. *)
Lemma map_descriptors_returns (a : string) (net : network) (owner_script : JS.Buffer)
    (us : list (gmap string JS.value)) :
  address_toOutputScript lib a net = Ok owner_script ->
  map_descriptors a net us =
  ([], Return (map (fun u => {| txid := JS.prop u "txid";
                                vout := JS.prop u "vout";
                                amount_sats := JS.prop u "value";
                                script_pubkey_hex := JS.toHexString owner_script;
                                sequence := JS.null |}) us)).
Proof.
  intros Hscript. induction us as [|u us IH]; [reflexivity|].
  cbn [FetchUtxosAndBuild.map_descriptors map]. unfold FetchUtxosAndBuild.to_descriptor,
    FetchUtxosAndBuild.getP2WPKHScriptPubKeyHex. rewrite Hscript, bind_lift_ok, bind_ret, IH.
  reflexivity.
Qed.

Lemma build_prints_body (netArg toAddress amountBtc feeRate a : string) (net : network)
    (owner_script : JS.Buffer) (us : list (gmap string JS.value)) :
  address_toOutputScript lib a net = Ok owner_script ->
  us <> [] ->
  exists ds,
    Forall2 (describes owner_script) us ds /\
    FetchUtxosAndBuild.build lib netArg toAddress amountBtc feeRate a net us =
    ([print_transfer_input
        {| network_name := JS.toLowerCase netArg;
           to_address := toAddress;
           amount_btc := amountBtc;
           change_address := a;
           fee_rate_sat_per_vb := JS.parseInt10 feeRate;
           assume_taproot := false;
           utxos := ds |}], Return tt).
Proof.
  intros Hscript Hne. unfold FetchUtxosAndBuild.build.
  destruct us as [|u us]; [congruence|]. cbn [length Nat.eqb].
  rewrite (map_descriptors_returns a net owner_script (u :: us) Hscript).
  eexists. split; [|reflexivity].
  eapply map_descriptors_describes; [exact Hscript|].
  now rewrite (map_descriptors_returns a net owner_script (u :: us) Hscript).
Qed.

(** Where a printed body comes from: the five arguments, the address of the
    key, the explorer's answer, and the mapped list. *)
Lemma run_prints_body_inv (argv : list string) (body : transfer_input) :
  print_transfer_input body ∈ trace (run argv) ->
  exists netArg wif toAddress amountBtc feeRate fromAddress resp us ds,
    truthy (argv !! 2%nat) = Some netArg /\
    truthy (argv !! 3%nat) = Some wif /\
    truthy (argv !! 4%nat) = Some toAddress /\
    truthy (argv !! 5%nat) = Some amountBtc /\
    truthy (argv !! 6%nat) = Some feeRate /\
    from_address netArg wif = Ok fromAddress /\
    fetch_get world (utxo_url (FetchUtxosAndBuild.select_network netArg) fromAddress) = Ok resp /\
    ok resp = true /\
    json resp = Ok us /\
    us <> [] /\
    ended (map_descriptors fromAddress (FetchUtxosAndBuild.select_network netArg) us) = Return ds /\
    body = {| network_name := JS.toLowerCase netArg;
              to_address := toAddress;
              amount_btc := amountBtc;
              change_address := fromAddress;
              fee_rate_sat_per_vb := JS.parseInt10 feeRate;
              assume_taproot := false;
              utxos := ds |}.
Proof.
  unfold FetchUtxosAndBuild.run. rewrite trace_try_catch. intros H.
  apply elem_of_app in H as [H|H];
    [|exfalso; destruct (ended (FetchUtxosAndBuild.main lib world argv)); revert H; cbn; unlisted].
  revert H. unfold FetchUtxosAndBuild.main.
  destruct (truthy (argv !! 2%nat)) as [netArg|]; [|cbn; intros H; exfalso; revert H; unlisted].
  destruct (truthy (argv !! 3%nat)) as [wif|]; [|cbn; intros H; exfalso; revert H; unlisted].
  destruct (truthy (argv !! 4%nat)) as [toAddress|]; [|cbn; intros H; exfalso; revert H; unlisted].
  destruct (truthy (argv !! 5%nat)) as [amountBtc|]; [|cbn; intros H; exfalso; revert H; unlisted].
  destruct (truthy (argv !! 6%nat)) as [feeRate|]; [|cbn; intros H; exfalso; revert H; unlisted].
  cbv zeta.
  destruct (from_address netArg wif) as [fromAddress|] eqn:Haddr;
    [rewrite bind_lift_ok|cbn; intros H; inversion H].
  rewrite !bind_emit. cbn [trace fst].
  destruct (fetch_get world _) as [resp|] eqn:Hfetch;
    [rewrite bind_lift_ok|cbn; intros H; exfalso; revert H; unlisted].
  destruct (ok resp) eqn:Hok; cbn [negb];
    [|cbn; intros H; exfalso; revert H; unlisted].
  destruct (json resp) as [us|] eqn:Hjson;
    [rewrite bind_lift_ok|cbn; intros H; exfalso; revert H; unlisted].
  unfold FetchUtxosAndBuild.build.
  destruct us as [|u us]; [cbn; intros H; exfalso; revert H; unlisted|].
  cbn [length Nat.eqb]. rewrite trace_bind, map_descriptors_silent.
  destruct (ended (map_descriptors fromAddress _ (u :: us))) as [ds| | |] eqn:Hds;
    cbn; intros H; try (exfalso; revert H; unlisted).
  rewrite !elem_of_cons, elem_of_nil in H.
  destruct H as [H|[H|[H|[]]]]; try discriminate. injection H as ->.
  exists netArg, wif, toAddress, amountBtc, feeRate, fromAddress, resp, (u :: us), ds.
  repeat split; auto.
Qed.

End Materializer.

(** C4: every descriptor of a printed body carries the script that
    [toOutputScript] gives for the key's own address, in hex, and the txid,
    vout and value of its UTXO as they were received; nothing else of the
    explorer's answer enters a descriptor. *)
Theorem descriptors_carry_owner_script (lib : BitcoinJS) (world : World)
    (argv : list string) (body : transfer_input) :
  print_transfer_input body ∈ trace (FetchUtxosAndBuild.run lib world argv) ->
  exists netArg wif fromAddress owner_script resp us,
    truthy (argv !! 2%nat) = Some netArg /\
    truthy (argv !! 3%nat) = Some wif /\
    FetchUtxosAndBuild.from_address lib netArg wif = Ok fromAddress /\
    address_toOutputScript lib fromAddress (FetchUtxosAndBuild.select_network netArg) =
      Ok owner_script /\
    fetch_get world
      (FetchUtxosAndBuild.baseUrl (FetchUtxosAndBuild.select_network netArg)
         +:+ "/address/" +:+ fromAddress +:+ "/utxo") = Ok resp /\
    json resp = Ok us /\
    us <> [] /\
    Forall2 (describes owner_script) us (utxos body).
Proof.
  intros H. apply run_prints_body_inv in H
    as (netArg & wif & toAddress & amountBtc & feeRate & fromAddress & resp & us & ds
        & H2 & H3 & _ & _ & _ & Haddr & Hfetch & _ & Hjson & Hne & Hds & ->).
  destruct (map_descriptors_needs_script lib _ _ _ _ Hne Hds) as [owner_script Hscript].
  exists netArg, wif, fromAddress, owner_script, resp, us.
  repeat split; auto. cbn [utxos].
  eapply map_descriptors_describes; eauto.
Qed.

(** C4 at work: the explorer's entry brings a script of its own
    ("0014ffff"); the descriptor carries the owner's ("00146162"). *)
Lemma descriptors_carry_owner_script_witness :
  exists body,
    print_transfer_input body ∈
      trace (FetchUtxosAndBuild.run (Fixture.lib Fixture.b64 []) (Fixture.world [Fixture.utxo_1])
               Fixture.argv_build) /\
    map script_pubkey_hex (utxos body) = ["00146162"] /\
    exists owner_script,
      Forall2 (describes owner_script) [Fixture.utxo_1] (utxos body).
Proof.
  eexists. split; [vm_compute; listed|]. split; [reflexivity|].
  destruct (descriptors_carry_owner_script
              (Fixture.lib Fixture.b64 []) (Fixture.world [Fixture.utxo_1]) Fixture.argv_build _
              ltac:(vm_compute; listed))
    as (netArg & wif & fromAddress & owner_script & resp & us & _ & _ & _ & _ & Hf & Hj & _ & HF).
  exists owner_script. cbn in Hf. injection Hf as <-. cbn in Hj. injection Hj as <-.
  exact HF.
Defined.

(** C10, as amended: the change address of a printed body is the P2WPKH
    address of the key given as WIF, on one network [net] that serves both
    to decode the WIF and to encode the address: testnet when the selector
    is testnet, mainnet when it is mainnet (in any letter case).  The other
    arguments and the explorer's answer have no part in it. *)
Theorem change_address_is_key_address (lib : BitcoinJS) (world : World)
    (argv : list string) (body : transfer_input) :
  print_transfer_input body ∈ trace (FetchUtxosAndBuild.run lib world argv) ->
  (exists netArg wif net keyPair payment,
     truthy (argv !! 2%nat) = Some netArg /\
     truthy (argv !! 3%nat) = Some wif /\
     (JS.toLowerCase netArg = "testnet" -> net = networks_testnet) /\
     (JS.toLowerCase netArg = "mainnet" -> net = networks_bitcoin) /\
     ECPair_fromWIF lib wif net = Ok keyPair /\
     payments_p2wpkh lib (publicKey lib keyPair) net = Ok payment /\
     change_address body = address payment) /\
  (forall world' argv' body',
     truthy (argv' !! 2%nat) = truthy (argv !! 2%nat) ->
     truthy (argv' !! 3%nat) = truthy (argv !! 3%nat) ->
     print_transfer_input body' ∈ trace (FetchUtxosAndBuild.run lib world' argv') ->
     change_address body' = change_address body).
Proof.
  intros H. apply run_prints_body_inv in H
    as (netArg & wif & toAddress & amountBtc & feeRate & fromAddress & resp & us & ds
        & H2 & H3 & _ & _ & _ & Haddr & _ & _ & _ & _ & _ & ->).
  cbn [change_address]. split.
  - exists netArg, wif, (FetchUtxosAndBuild.select_network netArg). pose proof Haddr as Hkey.
    unfold FetchUtxosAndBuild.from_address in Hkey. cbv zeta in Hkey.
    destruct (ECPair_fromWIF lib wif _) as [keyPair|] eqn:Hwif; [|discriminate].
    destruct (payments_p2wpkh lib (publicKey lib keyPair) _) as [payment|] eqn:Hpay;
      [|discriminate].
    injection Hkey as <-. exists keyPair, payment.
    repeat split; auto; intros Hsel; rewrite select_network_two_way, Hsel; reflexivity.
  - intros world' argv' body' E2 E3 H'. apply run_prints_body_inv in H'
      as (netArg' & wif' & toAddress' & amountBtc' & feeRate' & fromAddress' & resp' & us' & ds'
          & H2' & H3' & _ & _ & _ & Haddr' & _ & _ & _ & _ & _ & ->).
    cbn [change_address]. congruence.
Qed.

(** C10, as amended, at work: the selector "TestNet" gives the key's
    testnet address ("tb1qab"), not the destination the caller gave. *)
Lemma change_address_is_key_address_witness :
  exists body keyPair payment,
    print_transfer_input body ∈
      trace (FetchUtxosAndBuild.run (Fixture.lib Fixture.b64 []) (Fixture.world [Fixture.utxo_1])
               ["node"; "fetch_utxos_and_build.js"; "TestNet"; Fixture.wif_a; "tb1qdest";
                "0.00009"; "5"]) /\
    to_address body = "tb1qdest" /\
    change_address body = "tb1qab" /\
    ECPair_fromWIF (Fixture.lib Fixture.b64 []) Fixture.wif_a networks_testnet = Ok keyPair /\
    payments_p2wpkh (Fixture.lib Fixture.b64 [])
      (publicKey (Fixture.lib Fixture.b64 []) keyPair) networks_testnet = Ok payment /\
    change_address body = address payment.
Proof.
  destruct (change_address_is_key_address
              (Fixture.lib Fixture.b64 []) (Fixture.world [Fixture.utxo_1])
              ["node"; "fetch_utxos_and_build.js"; "TestNet"; Fixture.wif_a; "tb1qdest";
               "0.00009"; "5"]
              {| network_name := "testnet";
                 to_address := "tb1qdest";
                 amount_btc := "0.00009";
                 change_address := "tb1qab";
                 fee_rate_sat_per_vb := Some 5;
                 assume_taproot := false;
                 utxos := [ {| txid := JS.str "ab12";
                               vout := JS.number 1;
                               amount_sats := JS.number 20000;
                               script_pubkey_hex := "00146162";
                               sequence := JS.null |} ] |}
              ltac:(vm_compute; listed))
    as [(netArg & wif & net & keyPair & payment & H2 & H3 & Htest & _ & Hwif & Hpay & Hchange) _].
  cbn in H2, H3. injection H2 as <-. injection H3 as <-.
  rewrite (Htest eq_refl) in Hwif, Hpay.
  eexists _, keyPair, payment. split; [vm_compute; listed|].
  split; [reflexivity|]. split; [reflexivity|]. auto.
Defined.

(** C10, as stated, fails: with the selector "regtest" the body is named
    "regtest", and its change address is the key's mainnet address
    ("bc1qab"), where the key's address on regtest is "bcrt1qab". *)
Lemma change_address_off_selected_network :
  exists body,
    print_transfer_input body ∈
      trace (FetchUtxosAndBuild.run (Fixture.lib Fixture.b64 []) (Fixture.world [Fixture.utxo_1])
               ["node"; "fetch_utxos_and_build.js"; "regtest"; "Kba"; "bcrt1qdest";
                "0.1"; "5"]) /\
    network_name body = "regtest" /\
    SignAndBroadcast.getNetwork (Some "regtest") = Ok networks_regtest /\
    change_address body = "bc1qab" /\
    payments_p2wpkh (Fixture.lib Fixture.b64 []) Fixture.pub_a networks_regtest =
      Ok {| address := "bcrt1qab"; output := [x00; x14; x61; x62] |} /\
    payments_p2wpkh (Fixture.lib Fixture.b64 []) Fixture.pub_a networks_bitcoin =
      Ok {| address := "bc1qab"; output := [x00; x14; x61; x62] |}.
Proof.
  eexists. split; [vm_compute; listed|]. repeat split.
Qed.

(** C6: when the explorer answers the script's query with an empty list,
    the script prints "No UTXOs found for this address.", exits with status
    1, and prints no body. *)
Theorem empty_utxo_list_prints_no_body (lib : BitcoinJS) (world : World)
    (argv : list string) (url : string) (resp : Response) :
  external (http_get url) ∈ trace (FetchUtxosAndBuild.run lib world argv) ->
  fetch_get world url = Ok resp ->
  ok resp = true ->
  json resp = Ok [] ->
  ended (FetchUtxosAndBuild.run lib world argv) = Exit 1 /\
  last (trace (FetchUtxosAndBuild.run lib world argv)) =
    Some (console_error "No UTXOs found for this address.") /\
  Forall (fun e => ¬ body_event e) (trace (FetchUtxosAndBuild.run lib world argv)).
Proof.
  unfold FetchUtxosAndBuild.run, FetchUtxosAndBuild.main.
  destruct (truthy (argv !! 2%nat)) as [netArg|]; [|cbn; intros H; exfalso; revert H; unlisted].
  destruct (truthy (argv !! 3%nat)) as [wif|]; [|cbn; intros H; exfalso; revert H; unlisted].
  destruct (truthy (argv !! 4%nat)) as [toAddress|]; [|cbn; intros H; exfalso; revert H; unlisted].
  destruct (truthy (argv !! 5%nat)) as [amountBtc|]; [|cbn; intros H; exfalso; revert H; unlisted].
  destruct (truthy (argv !! 6%nat)) as [feeRate|]; [|cbn; intros H; exfalso; revert H; unlisted].
  cbv zeta.
  destruct (FetchUtxosAndBuild.from_address lib netArg wif) as [fromAddress|];
    [rewrite bind_lift_ok|cbn; intros H; exfalso; revert H; unlisted].
  rewrite !bind_emit.
  set (url' := FetchUtxosAndBuild.baseUrl (FetchUtxosAndBuild.select_network netArg)
                 +:+ "/address/" +:+ fromAddress +:+ "/utxo").
  intros Hin Hfetch Hok Hjson.
  assert (url = url') as ->.
  { rewrite trace_try_catch in Hin. cbn [trace fst ended snd] in Hin.
    destruct (fetch_get world url') as [resp'|];
      [rewrite bind_lift_ok in Hin|revert Hin; cbn; unlisted].
    destruct (ok resp'); cbn [negb] in Hin; [|revert Hin; cbn; unlisted].
    destruct (json resp') as [us|];
      [rewrite bind_lift_ok in Hin|revert Hin; cbn; unlisted].
    unfold FetchUtxosAndBuild.build in Hin.
    destruct us as [|u us]; [revert Hin; cbn; unlisted|].
    cbn [length Nat.eqb] in Hin. rewrite trace_bind, ended_bind, map_descriptors_silent in Hin.
    destruct (ended (FetchUtxosAndBuild.map_descriptors lib fromAddress _ (u :: us)));
      revert Hin; cbn; unlisted. }
  rewrite Hfetch, bind_lift_ok, Hok. cbn [negb]. rewrite Hjson, bind_lift_ok.
  cbn. repeat split. repeat constructor; simpl; auto.
Qed.

(** C6 at work: an explorer that knows no output of the address. *)
Lemma empty_utxo_list_prints_no_body_witness :
  ended (FetchUtxosAndBuild.run (Fixture.lib Fixture.b64 []) (Fixture.world [])
           Fixture.argv_build) = Exit 1 /\
  last (trace (FetchUtxosAndBuild.run (Fixture.lib Fixture.b64 []) (Fixture.world [])
           Fixture.argv_build)) = Some (console_error "No UTXOs found for this address.") /\
  Forall (fun e => ¬ body_event e)
    (trace (FetchUtxosAndBuild.run (Fixture.lib Fixture.b64 []) (Fixture.world [])
           Fixture.argv_build)).
Proof.
  apply (empty_utxo_list_prints_no_body (Fixture.lib Fixture.b64 []) (Fixture.world [])
           Fixture.argv_build "https://blockstream.info/testnet/api/address/tb1qab/utxo"
           {| ok := true; status := 200; statusText := "OK"; text := Ok ""; json := Ok [] |}).
  - vm_compute. listed.
  - reflexivity.
  - reflexivity.
  - reflexivity.
Defined.

(** ** inspect_psbt.js *)

Lemma print_input_testnet (lib : BitcoinJS) (idx : nat) (input : PsbtInput) :
  Forall (fun e => ¬ decodes_off_testnet e) (trace (InspectPsbt.print_input lib idx input)).
Proof.
  unfold InspectPsbt.print_input.
  apply Forall_trace_bind; [apply Forall_trace_emit; auto|]. intros _.
  destruct (witnessUtxo input) as [utxo|].
  - repeat (apply Forall_trace_bind; [|intros]);
      first [apply Forall_trace_lift | apply Forall_trace_emit; cbn; auto].
  - apply Forall_trace_emit. auto.
Qed.

Lemma for_each_testnet (lib : BitcoinJS) (inputs : list PsbtInput) :
  forall idx, Forall (fun e => ¬ decodes_off_testnet e) (trace (InspectPsbt.for_each lib idx inputs)).
Proof.
  induction inputs as [|input inputs IH]; intros idx; [constructor|].
  cbn [InspectPsbt.for_each].
  apply Forall_trace_bind; [apply print_input_testnet|]. intros _. apply IH.
Qed.

(** C9, on the code: the script has no network argument; every address it
    decodes, it decodes for testnet.  An input whose script reads "bc1qab"
    on mainnet is printed with the address "tb1qab". *)
Theorem inspect_decodes_for_testnet_only :
  (forall (lib : BitcoinJS) (argv : list string),
     Forall (fun e => ¬ decodes_off_testnet e) (trace (InspectPsbt.main lib argv))) /\
  (Fixture.fromOutputScript (Fixture.p2wpkh_script Fixture.pub_a) networks_bitcoin,
   InspectPsbt.main (Fixture.lib Fixture.b64 [Fixture.owned_by Fixture.pub_a 20000])
     ["node"; "inspect_psbt.js"; Fixture.b64]) =
  (Ok "bc1qab",
   ([ console_log "Input 0:";
      console_log "  Value (sats): 20000";
      console_log "  ScriptPubKey hex: 00146162";
      external (fromOutputScript_called [x00; x14; x61; x62] networks_testnet);
      console_log "  Address: tb1qab" ],
    Return tt)).
Proof.
  split.
  - intros lib argv. unfold InspectPsbt.main.
    apply Forall_trace_bind; [apply Forall_trace_lift|]. intros psbt. apply for_each_testnet.
  - vm_compute. reflexivity.
Qed.

(** ** The order of the steps in sign_and_broadcast.js

    What goes on inside [finalizeAllInputs], [extractTransaction] and
    [ecc.sign] is the libraries' business.  What the script itself does
    around these calls is stated here. *)

Section Pipeline.

Context (lib : BitcoinJS) (world : World).

Lemma finalize_cases (psbt : Psbt lib) :
  let r := finalizeAllInputs lib psbt in
  match snd r with
  | Ok _ =>
      SignAndBroadcast.finalize lib psbt =
      ([external (finalizeAllInputs_called false)], Return (fst r))
  | Thrown message =>
      SignAndBroadcast.finalize lib psbt =
      ([external (finalizeAllInputs_called true)], Throw message)
  end.
Proof.
  intros r. unfold SignAndBroadcast.finalize. fold r. destruct (snd r); reflexivity.
Qed.

Lemma extract_cases (psbt : Psbt lib) :
  let r := extractTransaction lib psbt in
  match snd r with
  | Ok tx =>
      SignAndBroadcast.extract lib psbt =
      ([external (extractTransaction_called false);
        console_log (JS.nl +:+ "Signed TX:");
        print_signed_tx {| signed_txid := getId lib tx;
                           signed_hex := toHex lib tx;
                           signed_psbt_base64 := toBase64 lib (fst r) |}],
       Return (toHex lib tx))
  | Thrown message =>
      SignAndBroadcast.extract lib psbt =
      ([external (extractTransaction_called true)], Throw message)
  end.
Proof.
  intros r. unfold SignAndBroadcast.extract. fold r. destruct (snd r); reflexivity.
Qed.

Lemma broadcast_events (netArg txHex : string) :
  Forall broadcast_event (trace (SignAndBroadcast.broadcast world netArg txHex)).
Proof.
  unfold SignAndBroadcast.broadcast.
  repeat (apply Forall_trace_bind; [|intros]);
    try match goal with |- context [if ?b then _ else _] => destruct b end;
    repeat (apply Forall_trace_bind; [|intros]);
    first [apply Forall_trace_lift | apply Forall_trace_emit; exact I | constructor].
Qed.

Lemma session_shape (fuel : nat) (netArg : string) (keyPair : KeyPair lib) (psbt : Psbt lib) :
  exists tr rest,
    Forall signing_event tr /\
    pipeline_tail rest (ended (SignAndBroadcast.session lib world fuel netArg keyPair psbt)) /\
    trace (SignAndBroadcast.session lib world fuel netArg keyPair psbt) = (tr ++ rest)%list.
Proof.
  unfold SignAndBroadcast.session.
  pose proof (sign_all_inputs_signing lib fuel (SignAndBroadcast.signer lib keyPair) psbt) as Hs.
  destruct (SignAndBroadcast.sign_all_inputs lib fuel (SignAndBroadcast.signer lib keyPair) psbt)
    as [tr e].
  cbn [trace fst] in Hs. exists tr.
  destruct e as [r| | |];
    try (exists []; split; [exact Hs|]; split;
         [apply stops_before_validation; discriminate|cbn; now rewrite app_nil_r]).
  rewrite bind_Return. cbn [trace ended fst snd].
  pose proof (validate_cases lib (fst r)) as Hv. cbv zeta in Hv.
  destruct (snd (validateSignaturesOfAllInputs lib (fst r) (SignAndBroadcast.validator lib)))
    as [[]|message] eqn:Er; rewrite Hv;
    [|exists [external (validateSignaturesOfAllInputs_called (Ok false))];
      split; [exact Hs|]; split; [apply stops_at_validation; discriminate|reflexivity]
     |exists [external (validateSignaturesOfAllInputs_called (Thrown message))];
      split; [exact Hs|]; split; [apply stops_at_validation; discriminate|reflexivity]].
  rewrite bind_Return. cbn [trace ended fst snd].
  pose proof (finalize_cases (fst (validateSignaturesOfAllInputs lib (fst r)
                                     (SignAndBroadcast.validator lib)))) as Hf.
  cbv zeta in Hf. destruct (snd (finalizeAllInputs lib _)); rewrite Hf;
    [|eexists; split; [exact Hs|]; split; [apply stops_at_finalization|reflexivity]].
  rewrite bind_Return. cbn [trace ended fst snd].
  match goal with |- context [SignAndBroadcast.extract lib ?p] =>
    pose proof (extract_cases p) as He end.
  cbv zeta in He. destruct (snd (extractTransaction lib _)) as [tx|]; rewrite He;
    [|eexists; split; [exact Hs|]; split; [apply stops_at_extraction|reflexivity]].
  rewrite bind_Return. cbn [trace ended fst snd].
  eexists. split; [exact Hs|]. split; [|reflexivity].
  cbn [app]. apply reaches_broadcast, broadcast_events.
Qed.

Lemma try_block_shape (fuel : nat) (argv : list string) :
  exists tr rest,
    Forall signing_event tr /\
    pipeline_tail rest (ended (SignAndBroadcast.try_block lib world fuel argv)) /\
    trace (SignAndBroadcast.try_block lib world fuel argv) = (tr ++ rest)%list.
Proof.
  assert (Hstop : forall (tr : list event) (e : ending unit),
            Forall signing_event tr -> e <> Return tt ->
            exists tr' rest, Forall signing_event tr' /\ pipeline_tail rest e /\
                             tr = (tr' ++ rest)%list).
  { intros tr e Htr He. exists tr, []. rewrite app_nil_r.
    auto using stops_before_validation. }
  unfold SignAndBroadcast.try_block.
  destruct (truthy (argv !! 2%nat)) as [netArg|];
    [|apply Hstop; [repeat constructor|discriminate]].
  destruct (truthy (argv !! 3%nat)) as [wif|];
    [|apply Hstop; [repeat constructor|discriminate]].
  destruct (truthy (argv !! 4%nat)) as [psbtB64|];
    [|apply Hstop; [repeat constructor|discriminate]].
  destruct (SignAndBroadcast.getNetwork (Some netArg)) as [net|];
    [rewrite bind_lift_ok|apply Hstop; [repeat constructor|discriminate]].
  destruct (ECPair_fromWIF lib wif net) as [keyPair|];
    [rewrite bind_lift_ok|apply Hstop; [repeat constructor|discriminate]].
  destruct (payments_p2wpkh lib (publicKey lib keyPair) net) as [myP2WPKH|];
    [rewrite bind_lift_ok|apply Hstop; [repeat constructor|discriminate]].
  rewrite bind_emit.
  destruct (Psbt_fromBase64 lib (Some psbtB64) (Some net)) as [psbt|];
    [rewrite bind_lift_ok|apply Hstop; [repeat constructor|discriminate]].
  destruct (session_shape fuel netArg keyPair psbt) as (tr & rest & Htr & Htail & Heq).
  exists (console_log ("WIF-derived address (p2wpkh): " +:+ address myP2WPKH) :: tr), rest.
  cbn [trace ended fst snd]. split; [constructor; [exact I|exact Htr]|].
  split; [exact Htail|]. cbn [app]. f_equal. exact Heq.
Qed.

(** X8: a failed [finalizeAllInputs] is the last library call of the run: the
    script prints the error and exits with status 1; it extracts, prints and
    broadcasts nothing, and does nothing more to the PSBT. *)
Lemma finalization_failure_ends_run (fuel : nat) (argv : list string) :
  external (finalizeAllInputs_called true) ∈ trace (SignAndBroadcast.main lib world fuel argv) ->
  ended (SignAndBroadcast.main lib world fuel argv) = Exit 1 /\
  exists tr message,
    Forall signing_event tr /\
    trace (SignAndBroadcast.main lib world fuel argv) =
    (tr ++ [external (validateSignaturesOfAllInputs_called (Ok true));
            external (finalizeAllInputs_called true);
            console_error ("Error: " +:+ message)])%list.
Proof.
  unfold SignAndBroadcast.main. rewrite trace_try_catch.
  destruct (try_block_shape fuel argv) as (tr & rest & Htr & Htail & Heq).
  destruct (SignAndBroadcast.try_block lib world fuel argv) as [tr0 e].
  cbn [trace ended fst snd] in *. subst tr0. intros Hin.
  assert (Hno : forall l, Forall signing_event l -> external (finalizeAllInputs_called true) ∉ l).
  { intros l Hl Hx. rewrite Forall_forall in Hl. exact (Hl _ Hx). }
  assert (Hnb : forall l, Forall broadcast_event l -> external (finalizeAllInputs_called true) ∉ l).
  { intros l Hl Hx. rewrite Forall_forall in Hl. exact (Hl _ Hx). }
  rewrite !elem_of_app in Hin. destruct Hin as [[Hin|Hin]|Hin];
    [exfalso; exact (Hno _ Htr Hin)| |exfalso; destruct e; revert Hin; cbn; unlisted].
  destruct Htail as [e He|r message Hr|message|message|tx tr' e Hb].
  - inversion Hin.
  - exfalso. revert Hin. unlisted.
  - split; [reflexivity|]. exists tr, message. split; [exact Htr|].
    cbn. now rewrite <- app_assoc.
  - exfalso. revert Hin. unlisted.
  - exfalso. rewrite !elem_of_cons in Hin.
    destruct Hin as [Hin|[Hin|[Hin|[Hin|[Hin|Hin]]]]]; try discriminate.
    exact (Hnb _ Hb Hin).
Qed.

(** X9: [extractTransaction] is called only after [finalizeAllInputs] has
    returned, and when it throws the script prints no transaction and
    broadcasts nothing. *)
Lemma extraction_follows_finalization (fuel : nat) (argv : list string) (threw : bool) :
  external (extractTransaction_called threw) ∈ trace (SignAndBroadcast.main lib world fuel argv) ->
  external (finalizeAllInputs_called false) ∈ trace (SignAndBroadcast.main lib world fuel argv) /\
  (threw = true ->
   ended (SignAndBroadcast.main lib world fuel argv) = Exit 1 /\
   Forall (fun e => match e with
                    | print_signed_tx _ | external (http_post _ _) => False
                    | _ => True
                    end) (trace (SignAndBroadcast.main lib world fuel argv))).
Proof.
  unfold SignAndBroadcast.main. rewrite trace_try_catch.
  destruct (try_block_shape fuel argv) as (tr & rest & Htr & Htail & Heq).
  destruct (SignAndBroadcast.try_block lib world fuel argv) as [tr0 e].
  cbn [trace ended fst snd] in *. subst tr0. intros Hin.
  assert (Hno : forall l, Forall signing_event l -> external (extractTransaction_called threw) ∉ l).
  { intros l Hl Hx. rewrite Forall_forall in Hl. exact (Hl _ Hx). }
  assert (Hnb : forall l, Forall broadcast_event l -> external (extractTransaction_called threw) ∉ l).
  { intros l Hl Hx. rewrite Forall_forall in Hl. exact (Hl _ Hx). }
  rewrite !elem_of_app in Hin. destruct Hin as [[Hin|Hin]|Hin];
    [exfalso; exact (Hno _ Htr Hin)| |exfalso; destruct e; revert Hin; cbn; unlisted].
  destruct Htail as [e He|r message Hr|message|message|tx tr' e Hb].
  - inversion Hin.
  - exfalso. revert Hin. unlisted.
  - exfalso. revert Hin. unlisted.
  - split; [rewrite !elem_of_app; left; right; listed|].
    intros _. split; [reflexivity|]. cbn. rewrite !Forall_app. repeat split;
      [eapply Forall_impl; [exact Htr|]; intros [| | | |[]]; simpl; tauto
      |repeat constructor..].
  - split; [rewrite !elem_of_app; left; right; listed|].
    intros ->. exfalso. rewrite !elem_of_cons in Hin.
    destruct Hin as [Hin|[Hin|[Hin|[Hin|[Hin|Hin]]]]]; try discriminate.
    exact (Hnb _ Hb Hin).
Qed.

(** The signer hands [ecc.sign] the digest and the private key, and nothing
    else: no third argument, no state of the script. *)
Lemma signer_passes_digest_and_key (keyPair : KeyPair lib) (hash : JS.Buffer) :
  sign (SignAndBroadcast.signer lib keyPair) hash = ecc_sign lib hash (privateKey lib keyPair) /\
  signer_publicKey (SignAndBroadcast.signer lib keyPair) = publicKey lib keyPair.
Proof. split; reflexivity. Qed.

End Pipeline.

(** The two ends of the signing loop on the library instance: a PSBT none
    of whose inputs is locked to the key ends the run with status 2 before
    any validation; the mixed PSBT goes on to validation with two inputs
    signed. *)
Example no_input_signed_example :
  SignAndBroadcast.main (Fixture.lib Fixture.b64 [Fixture.owned_by Fixture.pub_b 7000])
    (Fixture.world []) 2 Fixture.argv_sign =
  ([ console_log "WIF-derived address (p2wpkh): tb1qab";
     external (signInput_called 0 true);
     console_log "signInput(0) failed: Can not sign for this input with the key 6162";
     console_error SignAndBroadcast.no_inputs_signed ],
   Exit 2).
Proof. vm_compute. reflexivity. Qed.

Example some_inputs_signed_example :
  trace (SignAndBroadcast.main (Fixture.lib Fixture.b64 Fixture.psbt_mixed)
           (Fixture.world []) 4 Fixture.argv_sign) =
  [ console_log "WIF-derived address (p2wpkh): tb1qab";
    external (signInput_called 0 false);
    external (signInput_called 1 true);
    console_log "signInput(1) failed: Can not sign for this input with the key 6162";
    external (signInput_called 2 false);
    external (validateSignaturesOfAllInputs_called (Ok true));
    external (finalizeAllInputs_called true);
    console_error "Error: Can not finalize input" ].
Proof. vm_compute. reflexivity. Qed.

(** ** Every run of sign_and_broadcast.js *)

Lemma attempts_app (l1 l2 : list event) :
  attempts (l1 ++ l2) = (attempts l1 ++ attempts l2)%list.
Proof. induction l1 as [|[| | | |[]] l1 IH]; cbn; rewrite ?IH; reflexivity. Qed.

Lemma successes_app (l1 l2 : list event) :
  successes (l1 ++ l2) = (successes l1 + successes l2)%nat.
Proof.
  unfold successes. rewrite attempts_app, List.filter_app, length_app. reflexivity.
Qed.

Lemma posts_app (l1 l2 : list event) : posts (l1 ++ l2) = (posts l1 ++ posts l2)%list.
Proof. induction l1 as [|[| | | |[]] l1 IH]; cbn; rewrite ?IH; reflexivity. Qed.

Lemma printed_txs_app (l1 l2 : list event) :
  printed_txs (l1 ++ l2) = (printed_txs l1 ++ printed_txs l2)%list.
Proof. induction l1 as [|[| | | |[]] l1 IH]; cbn; rewrite ?IH; reflexivity. Qed.

Lemma signing_posts (tr : list event) : Forall signing_event tr -> posts tr = [].
Proof.
  induction 1 as [|e tr He _ IH]; [reflexivity|].
  destruct e as [| | | |[]]; cbn in *; auto; contradiction.
Qed.

Lemma signing_printed_txs (tr : list event) : Forall signing_event tr -> printed_txs tr = [].
Proof.
  induction 1 as [|e tr He _ IH]; [reflexivity|].
  destruct e as [| | | |[]]; cbn in *; auto; contradiction.
Qed.

Section Runs.

Context (lib : BitcoinJS) (world : World).

Lemma broadcast_runs (netArg hex : string) :
  broadcast_run world netArg hex
    (trace (SignAndBroadcast.broadcast world netArg hex))
    (ended (SignAndBroadcast.broadcast world netArg hex)).
Proof.
  unfold SignAndBroadcast.broadcast.
  destruct (SignAndBroadcast.broadcastUrl (Some netArg)) as [url|message] eqn:Hurl;
    [rewrite bind_lift_ok|cbn; apply broadcast_without_url; assumption].
  rewrite bind_emit. cbn [trace ended fst snd].
  destruct (fetch_post world url hex) as [resp|message] eqn:Hpost;
    [rewrite bind_lift_ok|cbn; apply broadcast_request_fails; auto].
  destruct (text resp) as [body|message] eqn:Htext;
    [rewrite bind_lift_ok|cbn; apply broadcast_request_fails; eauto].
  destruct (ok resp) eqn:Hok; cbn.
  - now apply (broadcast_accepted world netArg hex url resp body).
  - now apply (broadcast_rejected world netArg hex url resp body).
Qed.

Lemma sign_all_inputs_runs (fuel : nat) (s : Signer) (psbt : Psbt lib) :
  Forall signing_event (trace (SignAndBroadcast.sign_all_inputs lib fuel s psbt)) /\
  match ended (SignAndBroadcast.sign_all_inputs lib fuel s psbt) with
  | Return r => (0 < successes (trace (SignAndBroadcast.sign_all_inputs lib fuel s psbt)))%nat
  | Exit code =>
      code = 2 /\ successes (trace (SignAndBroadcast.sign_all_inputs lib fuel s psbt)) = 0%nat
  | Throw _ => False
  | OutOfFuel => True
  end.
Proof.
  split; [apply sign_all_inputs_signing|].
  pose proof (sign_all_inputs_counts_successes lib fuel s psbt) as H.
  destruct (ended (SignAndBroadcast.sign_all_inputs lib fuel s psbt)); auto.
  destruct H as [<- H]. exact H.
Qed.

Lemma session_runs (fuel : nat) (netArg : string) (keyPair : KeyPair lib) (psbt : Psbt lib) :
  session_run world netArg
    (trace (SignAndBroadcast.session lib world fuel netArg keyPair psbt))
    (ended (SignAndBroadcast.session lib world fuel netArg keyPair psbt)).
Proof.
  unfold SignAndBroadcast.session.
  destruct (sign_all_inputs_runs fuel (SignAndBroadcast.signer lib keyPair) psbt) as [Hs He].
  destruct (SignAndBroadcast.sign_all_inputs lib fuel (SignAndBroadcast.signer lib keyPair) psbt)
    as [tr e].
  cbn [trace ended fst snd] in Hs, He.
  destruct e as [r|message|code|]; [|contradiction|destruct He as [-> He]|].
  2: { cbn. now apply session_stops_unsigned. }
  2: { cbn. now apply session_stops_out_of_fuel. }
  rewrite bind_Return. cbn [trace ended fst snd].
  pose proof (validate_cases lib (fst r)) as Hv. cbv zeta in Hv.
  destruct (snd (validateSignaturesOfAllInputs lib (fst r) (SignAndBroadcast.validator lib)))
    as [[]|message]; rewrite Hv;
    [|cbn; now apply session_stops_validation_false
     |cbn; now apply session_stops_validation_throws].
  rewrite bind_Return. cbn [trace ended fst snd].
  match goal with |- context [SignAndBroadcast.finalize lib ?p] =>
    pose proof (finalize_cases lib p) as Hf end.
  cbv zeta in Hf. destruct (snd (finalizeAllInputs lib _)); rewrite Hf;
    [|cbn; now apply session_stops_finalization].
  rewrite bind_Return. cbn [trace ended fst snd].
  match goal with |- context [SignAndBroadcast.extract lib ?p] =>
    pose proof (extract_cases lib p) as Hx end.
  cbv zeta in Hx. destruct (snd (extractTransaction lib _)) as [tx|]; rewrite Hx;
    [|cbn; now apply session_stops_extraction].
  rewrite bind_Return. cbn [trace ended fst snd app].
  match goal with |- context [print_signed_tx ?t] =>
    apply (session_reaches_broadcast world netArg tr t); auto end.
  apply broadcast_runs.
Qed.

Lemma try_block_runs (fuel : nat) (argv : list string) :
  try_block_run world (argv !! 2%nat)
    (trace (SignAndBroadcast.try_block lib world fuel argv))
    (ended (SignAndBroadcast.try_block lib world fuel argv)).
Proof.
  unfold SignAndBroadcast.try_block.
  destruct (truthy (argv !! 2%nat)) as [netArg|] eqn:H2; [|apply try_block_usage].
  destruct (truthy (argv !! 3%nat)) as [wif|]; [|apply try_block_usage].
  destruct (truthy (argv !! 4%nat)) as [psbtB64|]; [|apply try_block_usage].
  destruct (SignAndBroadcast.getNetwork (Some netArg)) as [net|];
    [rewrite bind_lift_ok|apply try_block_setup_throws; constructor].
  destruct (ECPair_fromWIF lib wif net) as [keyPair|];
    [rewrite bind_lift_ok|apply try_block_setup_throws; constructor].
  destruct (payments_p2wpkh lib (publicKey lib keyPair) net) as [myP2WPKH|];
    [rewrite bind_lift_ok|apply try_block_setup_throws; constructor].
  rewrite bind_emit.
  destruct (Psbt_fromBase64 lib (Some psbtB64) (Some net)) as [psbt|];
    [rewrite bind_lift_ok|apply try_block_setup_throws; repeat constructor; eauto].
  cbn [trace ended fst snd]. apply try_block_session with (netArg := netArg).
  - unfold truthy in H2. destruct (argv !! 2%nat) as [a|]; [|discriminate].
    destruct (String.eqb a ""); congruence.
  - apply session_runs.
Qed.

End Runs.

(** The cases of a run of [main], each with its trace written out. *)
Ltac main_cases lib world fuel argv :=
  unfold SignAndBroadcast.main;
  let H := fresh "Hrun" in
  let Hs := fresh "Hsession" in
  let Hb := fresh "Hbroadcast" in
  pose proof (try_block_runs lib world fuel argv) as H;
  destruct (SignAndBroadcast.try_block lib world fuel argv) as [tr0 e0];
  cbn [trace ended fst snd] in H;
  inversion H as [ | ? ? ? | ? ? ? ? ? Hs ]; subst;
  [ | | inversion Hs as [ | | | | | | ? ? ? ? ? ? Hb ]; subst;
        [ | | | | | | inversion Hb; subst ] ];
  cbn [try_catch bind emit exit trace ended fst snd app].

(** The POSTs of a trace that begins with signing events. *)
Ltac posts_of_run :=
  change (?a :: ?l ++ ?m) with ((a :: l) ++ m)%list;
  rewrite posts_app, signing_posts by (constructor; [exact I|assumption]);
  cbn [posts app].

Lemma posts_elem (tr : list event) (url body : string) :
  external (http_post url body) ∈ tr <-> (url, body) ∈ posts tr.
Proof.
  induction tr as [|e tr IH]; [cbn; now rewrite !elem_of_nil|].
  rewrite elem_of_cons, IH.
  destruct e as [| | | |[]]; cbn [posts]; rewrite ?elem_of_cons;
    intuition (try discriminate; try congruence).
Qed.

Lemma logs_are_signing (tr : list event) :
  Forall (fun e => exists line, e = console_log line) tr -> Forall signing_event tr.
Proof. intros H. eapply Forall_impl; [exact H|]. intros e [line ->]. exact I. Qed.

(** X1: sign_and_broadcast.js never ends on an uncaught error.  It ends
    normally only after one POST that was answered with an ok status; with
    status 3 only after one POST answered with another status; with status 2
    only when no [signInput] call returned, and then it has called nothing
    else of the library; otherwise with status 1. *)
Theorem main_exit_statuses (lib : BitcoinJS) (world : World) (fuel : nat) (argv : list string) :
  match ended (SignAndBroadcast.main lib world fuel argv) with
  | Return _ =>
      exists url hex resp,
        posts (trace (SignAndBroadcast.main lib world fuel argv)) = [(url, hex)] /\
        fetch_post world url hex = Ok resp /\ ok resp = true
  | Exit code =>
      code = 1 \/
      (code = 2 /\
       successes (trace (SignAndBroadcast.main lib world fuel argv)) = 0%nat /\
       Forall signing_event (trace (SignAndBroadcast.main lib world fuel argv))) \/
      (code = 3 /\
       exists url hex resp,
         posts (trace (SignAndBroadcast.main lib world fuel argv)) = [(url, hex)] /\
         fetch_post world url hex = Ok resp /\ ok resp = false)
  | Throw _ => False
  | OutOfFuel => True
  end.
Proof.
  main_cases lib world fuel argv; auto.
  - right. left. split; [reflexivity|]. split; [assumption|].
    constructor; [exact I|assumption].
  - right. right. split; [reflexivity|]. eexists _, _, _.
    split; [posts_of_run; reflexivity|split; eassumption].
  - eexists _, _, _. split; [posts_of_run; reflexivity|split; eassumption].
Qed.

Lemma signing_no_library_step (tr : list event) (e : event) :
  Forall signing_event tr -> signing_event e = false -> e ∉ tr.
Proof.
  intros H He Hin. rewrite Forall_forall in H. specialize (H e Hin).
  rewrite He in H. exact H.
Qed.

(** The POSTs and printed transactions of the traces of [main_cases]. *)
Ltac norm_run :=
  repeat match goal with
         | H : Forall (fun e => exists line, e = console_log line) _ |- _ =>
             apply logs_are_signing in H
         end;
  cbn [posts printed_txs];
  rewrite ?posts_app, ?printed_txs_app;
  cbn [posts printed_txs];
  rewrite ?signing_posts, ?signing_printed_txs by assumption;
  cbn [posts printed_txs app].

(** X2: whatever sign_and_broadcast.js posts is the hex of the transaction
    it has just printed, sent to the URL that [broadcastUrl] gives for the
    selector; a run makes no other POST. *)
Theorem broadcast_posts_printed_hex (lib : BitcoinJS) (world : World) (fuel : nat)
    (argv : list string) (url body : string) :
  external (http_post url body) ∈ trace (SignAndBroadcast.main lib world fuel argv) ->
  posts (trace (SignAndBroadcast.main lib world fuel argv)) = [(url, body)] /\
  SignAndBroadcast.broadcastUrl (argv !! 2%nat) = Ok url /\
  exists tx,
    printed_txs (trace (SignAndBroadcast.main lib world fuel argv)) = [tx] /\
    signed_hex tx = body.
Proof.
  rewrite posts_elem.
  main_cases lib world fuel argv; norm_run; intros Hin;
    try (apply elem_of_nil in Hin; contradiction).
  all: apply list_elem_of_singleton in Hin; injection Hin as -> ->.
  all: split; [reflexivity|]; split; [congruence|eauto].
Qed.

(** X2 at work: the one input of the PSBT is ours, and the transaction
    goes to the testnet endpoint. *)
Lemma broadcast_posts_printed_hex_witness :
  posts (trace (SignAndBroadcast.main (Fixture.lib Fixture.b64 Fixture.psbt_single)
                  (Fixture.world []) 2 Fixture.argv_sign)) =
    [("https://blockstream.info/testnet/api/tx", "00146162")] /\
  SignAndBroadcast.broadcastUrl (Fixture.argv_sign !! 2%nat) =
    Ok "https://blockstream.info/testnet/api/tx" /\
  exists tx,
    printed_txs (trace (SignAndBroadcast.main (Fixture.lib Fixture.b64 Fixture.psbt_single)
                          (Fixture.world []) 2 Fixture.argv_sign)) = [tx] /\
    signed_hex tx = "00146162".
Proof.
  apply (broadcast_posts_printed_hex (Fixture.lib Fixture.b64 Fixture.psbt_single)
           (Fixture.world []) 2 Fixture.argv_sign).
  vm_compute. listed.
Defined.

(** X3: [finalizeAllInputs] is called only straight after a
    [validateSignaturesOfAllInputs] that returned [true], and only in a run
    in which at least one [signInput] call returned; before the two there
    are only events of the signing loop. *)
Theorem finalization_follows_validation (lib : BitcoinJS) (world : World) (fuel : nat)
    (argv : list string) (threw : bool) :
  external (finalizeAllInputs_called threw) ∈ trace (SignAndBroadcast.main lib world fuel argv) ->
  exists before after,
    Forall signing_event before /\
    (0 < successes before)%nat /\
    trace (SignAndBroadcast.main lib world fuel argv) =
    (before ++ external (validateSignaturesOfAllInputs_called (Ok true)) ::
               external (finalizeAllInputs_called threw) :: after)%list.
Proof.
  main_cases lib world fuel argv; intros Hin;
    repeat match goal with
           | H : Forall (fun e => exists line, e = console_log line) _ |- _ =>
               apply logs_are_signing in H
           end;
    repeat (rewrite elem_of_cons in Hin || rewrite elem_of_app in Hin
            || rewrite elem_of_nil in Hin);
    repeat match type of Hin with
           | _ \/ _ => destruct Hin as [Hin|Hin]
           end;
    try discriminate; try contradiction;
    try (exfalso; revert Hin; apply signing_no_library_step; [assumption|reflexivity]).
  all: injection Hin as ->.
  all: match goal with
       | Hs : (0 < successes ?tr)%nat |- context [console_log ?a :: _] =>
           exists (console_log a :: tr)
       end.
  all: eexists; split; [constructor; [exact I|assumption]|]; split; [assumption|].
  all: rewrite <- ?app_assoc; cbn [app]; reflexivity.
Qed.

(** X3 at work: in the mixed PSBT two inputs are signed, validation passes,
    and finalization is called (and throws, input 1 having no signature). *)
Lemma finalization_follows_validation_witness :
  exists before after,
    Forall signing_event before /\
    (0 < successes before)%nat /\
    trace (SignAndBroadcast.main (Fixture.lib Fixture.b64 Fixture.psbt_mixed)
             (Fixture.world []) 4 Fixture.argv_sign) =
    (before ++ external (validateSignaturesOfAllInputs_called (Ok true)) ::
               external (finalizeAllInputs_called true) :: after)%list.
Proof.
  apply (finalization_follows_validation (Fixture.lib Fixture.b64 Fixture.psbt_mixed)
           (Fixture.world []) 4 Fixture.argv_sign true).
  vm_compute. listed.
Defined.

(** X4: [broadcastUrl] follows [getNetwork]: mainnet (also as "bitcoin"),
    testnet and signet have an endpoint each; for regtest, which
    [getNetwork] resolves, [broadcastUrl] throws; what [getNetwork] rejects,
    [broadcastUrl] rejects with the same message. *)
Theorem broadcastUrl_follows_getNetwork (name : JS.maybe string) :
  SignAndBroadcast.broadcastUrl name =
  match SignAndBroadcast.getNetwork name with
  | Ok networks_bitcoin => Ok "https://blockstream.info/api/tx"
  | Ok networks_testnet => Ok "https://blockstream.info/testnet/api/tx"
  | Ok networks_signet => Ok "https://mempool.space/signet/api/tx"
  | Ok networks_regtest => Thrown "No public broadcaster for regtest."
  | Thrown message => Thrown message
  end.
Proof.
  unfold SignAndBroadcast.broadcastUrl, SignAndBroadcast.getNetwork.
  cbv zeta. set (n := JS.toLowerCase (JS.or_empty name)).
  destruct (String.eqb n "mainnet"), (String.eqb n "bitcoin"), (String.eqb n "testnet"),
    (String.eqb n "signet"), (String.eqb n "regtest"); reflexivity.
Qed.

(** X5: sign_and_broadcast.js prints its usage line and exits with status 1,
    having done nothing else, exactly when one of its three arguments is
    missing or empty. *)
Theorem usage_iff_argument_missing (lib : BitcoinJS) (world : World) (fuel : nat)
    (argv : list string) :
  SignAndBroadcast.main lib world fuel argv =
    ([console_error SignAndBroadcast.usage], Exit 1) <->
  truthy (argv !! 2%nat) = None \/ truthy (argv !! 3%nat) = None \/
  truthy (argv !! 4%nat) = None.
Proof.
  unfold SignAndBroadcast.main, SignAndBroadcast.try_block.
  destruct (truthy (argv !! 2%nat)) as [netArg|]; [|cbn; tauto].
  destruct (truthy (argv !! 3%nat)) as [wif|]; [|cbn; tauto].
  destruct (truthy (argv !! 4%nat)) as [psbtB64|]; [|cbn; tauto].
  split; [|intros [H|[H|H]]; discriminate]. intros H. exfalso. revert H.
  destruct (SignAndBroadcast.getNetwork (Some netArg)) as [net|];
    [rewrite bind_lift_ok|cbn; intros [=]].
  destruct (ECPair_fromWIF lib wif net) as [keyPair|];
    [rewrite bind_lift_ok|cbn; intros [=]].
  destruct (payments_p2wpkh lib (publicKey lib keyPair) net) as [myP2WPKH|];
    [rewrite bind_lift_ok|cbn; intros [=]].
  rewrite bind_emit. intros H. apply (f_equal trace) in H.
  rewrite trace_try_catch in H. cbn in H. discriminate.
Qed.

Section Loop.

Context (lib : BitcoinJS).

Lemma sign_loop_in_order (fuel : nat) (s : Signer) :
  forall i signed psbt,
  exists k,
    map fst (attempts (trace (SignAndBroadcast.sign_loop lib fuel s i signed psbt))) = seq i k /\
    (k <= fuel)%nat /\
    match ended (SignAndBroadcast.sign_loop lib fuel s i signed psbt) with
    | Return r => (inputCount lib (fst r) <= i + k)%nat
    | _ => True
    end.
Proof.
  induction fuel as [|fuel IH]; intros i signed psbt; [exists 0%nat; cbn; auto|].
  rewrite sign_loop_unfold. destruct (i <? inputCount lib psbt)%nat eqn:E.
  - cbv zeta. destruct (snd (signInput lib psbt i s [SIGHASH_ALL lib])).
    + destruct (IH (S i) (S signed) (fst (signInput lib psbt i s [SIGHASH_ALL lib])))
        as (k & Ha & Hk & He).
      exists (S k). rewrite bind_emit. cbn [trace ended fst snd attempts map seq].
      rewrite Ha. repeat split; [lia|].
      destruct (ended (SignAndBroadcast.sign_loop lib fuel s (S i) (S signed) _)); auto. lia.
    + destruct (IH (S i) signed (fst (signInput lib psbt i s [SIGHASH_ALL lib])))
        as (k & Ha & Hk & He).
      exists (S k). rewrite !bind_emit. cbn [trace ended fst snd attempts map seq].
      rewrite Ha. repeat split; [lia|].
      destruct (ended (SignAndBroadcast.sign_loop lib fuel s (S i) signed _)); auto. lia.
  - exists 0%nat. cbn. apply Nat.ltb_ge in E. repeat split; lia.
Qed.

(** X6: whatever the library does, the loop calls [signInput] for the
    indices 0, 1, 2, ... in this order, each once and none left out; when it
    ends, the PSBT has no input beyond the ones tried. *)
Theorem sign_all_inputs_in_order (fuel : nat) (s : Signer) (psbt : Psbt lib) :
  exists k,
    map fst (attempts (trace (SignAndBroadcast.sign_all_inputs lib fuel s psbt))) = seq 0 k /\
    (k <= fuel)%nat /\
    match ended (SignAndBroadcast.sign_all_inputs lib fuel s psbt) with
    | Return r => (inputCount lib (fst r) <= k)%nat
    | _ => True
    end.
Proof.
  unfold SignAndBroadcast.sign_all_inputs.
  destruct (sign_loop_in_order fuel s 0 0 psbt) as (k & Ha & Hk & He). exists k.
  destruct (SignAndBroadcast.sign_loop lib fuel s 0 0 psbt) as [tr [r| | |]];
    cbn [trace ended fst snd] in *; try (cbn; auto; fail).
  rewrite bind_Return. destruct (snd r =? 0)%nat; cbn [trace ended fst snd emit exit ret bind app].
  - rewrite attempts_app, map_app, Ha. cbn. rewrite app_nil_r. auto.
  - rewrite app_nil_r. auto.
Qed.

Lemma sign_loop_enough_fuel (s : Signer) (n : nat) :
  (forall p i, inputCount lib (fst (signInput lib p i s [SIGHASH_ALL lib])) = inputCount lib p) ->
  forall fuel i signed psbt,
    inputCount lib psbt = n -> (n - i < fuel)%nat ->
    ended (SignAndBroadcast.sign_loop lib fuel s i signed psbt) <> OutOfFuel /\
    map fst (attempts (trace (SignAndBroadcast.sign_loop lib fuel s i signed psbt))) =
      seq i (n - i).
Proof.
  intros Hcount. induction fuel as [|fuel IH]; intros i signed psbt Hn Hfuel; [lia|].
  rewrite sign_loop_unfold, Hn. destruct (i <? n)%nat eqn:E.
  - apply Nat.ltb_lt in E. cbv zeta.
    replace (n - i)%nat with (S (n - S i)) by lia.
    destruct (snd (signInput lib psbt i s [SIGHASH_ALL lib]));
      rewrite !bind_emit; cbn [trace ended fst snd attempts map seq];
      match goal with |- context [SignAndBroadcast.sign_loop lib fuel s (S i) ?sg ?p] =>
        destruct (IH (S i) sg p) as [He Ha]; [rewrite Hcount; exact Hn|lia|]
      end; rewrite Ha; auto.
  - apply Nat.ltb_ge in E. replace (n - i)%nat with 0%nat by lia. cbn. split; [discriminate|auto].
Qed.

(** X7: with a library whose [signInput] leaves the number of inputs as it
    is, the loop ends once it has more iterations to spend than the PSBT has
    inputs, and it has then tried every input. *)
Theorem sign_all_inputs_terminates (s : Signer) (fuel : nat) (psbt : Psbt lib) :
  (forall p i, inputCount lib (fst (signInput lib p i s [SIGHASH_ALL lib])) = inputCount lib p) ->
  (inputCount lib psbt < fuel)%nat ->
  ended (SignAndBroadcast.sign_all_inputs lib fuel s psbt) <> OutOfFuel /\
  map fst (attempts (trace (SignAndBroadcast.sign_all_inputs lib fuel s psbt))) =
    seq 0 (inputCount lib psbt).
Proof.
  intros Hcount Hfuel. unfold SignAndBroadcast.sign_all_inputs.
  destruct (sign_loop_enough_fuel s (inputCount lib psbt) Hcount fuel 0 0 psbt eq_refl
              ltac:(lia)) as [He Ha].
  rewrite Nat.sub_0_r in Ha.
  destruct (SignAndBroadcast.sign_loop lib fuel s 0 0 psbt) as [tr [r| | |]];
    cbn [trace ended fst snd] in *; try (cbn; split; [discriminate|exact Ha]).
  - rewrite bind_Return.
    destruct (snd r =? 0)%nat; cbn [trace ended fst snd emit exit ret bind app].
    + rewrite attempts_app, map_app, Ha. cbn. rewrite app_nil_r. split; [discriminate|auto].
    + rewrite app_nil_r. split; [discriminate|auto].
  - contradiction.
Qed.

End Loop.

Lemma fixture_signInput_length (p : list Fixture.input) (i : nat) (s : Signer) (types : list Z) :
  length (fst (Fixture.fx_signInput p i s types)) = length p.
Proof.
  unfold Fixture.fx_signInput. destruct (p !! i) as [inp|]; [|reflexivity].
  destruct (Fixture.prevout inp) as [u|]; [|reflexivity].
  case_bool_decide; [|reflexivity]. destruct (sign s (script u)); [|reflexivity].
  cbn. apply length_insert.
Qed.

(** X7 at work: three inputs, four iterations to spend. *)
Lemma sign_all_inputs_terminates_witness :
  let lib := Fixture.lib Fixture.b64 Fixture.psbt_mixed in
  ended (SignAndBroadcast.sign_all_inputs lib 4 (SignAndBroadcast.signer lib [x62; x61])
           Fixture.psbt_mixed) <> OutOfFuel /\
  map fst (attempts (trace (SignAndBroadcast.sign_all_inputs lib 4
                              (SignAndBroadcast.signer lib [x62; x61]) Fixture.psbt_mixed))) =
    [0; 1; 2]%nat.
Proof.
  exact (sign_all_inputs_terminates (Fixture.lib Fixture.b64 Fixture.psbt_mixed)
           (SignAndBroadcast.signer (Fixture.lib Fixture.b64 Fixture.psbt_mixed) [x62; x61])
           4 Fixture.psbt_mixed
           (fun p i => fixture_signInput_length p i _ _) ltac:(vm_compute; lia)).
Defined.

(** X8 at work: input 1 of the mixed PSBT has no signature, and
    finalization throws. *)
Lemma finalization_failure_ends_run_witness :
  ended (SignAndBroadcast.main (Fixture.lib Fixture.b64 Fixture.psbt_mixed)
           (Fixture.world []) 4 Fixture.argv_sign) = Exit 1 /\
  exists tr message,
    Forall signing_event tr /\
    trace (SignAndBroadcast.main (Fixture.lib Fixture.b64 Fixture.psbt_mixed)
             (Fixture.world []) 4 Fixture.argv_sign) =
    (tr ++ [external (validateSignaturesOfAllInputs_called (Ok true));
            external (finalizeAllInputs_called true);
            console_error ("Error: " +:+ message)])%list.
Proof.
  apply (finalization_failure_ends_run (Fixture.lib Fixture.b64 Fixture.psbt_mixed)
           (Fixture.world []) 4 Fixture.argv_sign).
  vm_compute. listed.
Defined.

(** X9 at work: a run that gets as far as extraction. *)
Lemma extraction_follows_finalization_witness :
  external (finalizeAllInputs_called false) ∈
    trace (SignAndBroadcast.main (Fixture.lib Fixture.b64 Fixture.psbt_single)
             (Fixture.world []) 2 Fixture.argv_sign).
Proof.
  apply (extraction_follows_finalization (Fixture.lib Fixture.b64 Fixture.psbt_single)
           (Fixture.world []) 2 Fixture.argv_sign false).
  vm_compute. listed.
Defined.

(** ** Every run of fetch_utxos_and_build.js *)

(** X10: with the five arguments there, a key the WIF decodes to, an
    explorer answer that is ok and holds an array of objects that is not
    empty, and a script for the key's address, the script prints the derived
    address, makes its one GET, prints the body and ends normally;
    destination, amount and fee rate go into the body as given, the fee rate
    through [parseInt].  The selector and the fee rate are taken to be ASCII
    and the fee rate, when it is a number, a safe integer: there the
    lowercasing and [parseInt10] are JavaScript's. *)
Theorem run_prints_expected_body (lib : BitcoinJS) (world : World) (argv : list string)
    (netArg wif toAddress amountBtc feeRate fromAddress : string) (resp : Response)
    (us : list (gmap string JS.value)) (owner_script : JS.Buffer) :
  truthy (argv !! 2%nat) = Some netArg ->
  truthy (argv !! 3%nat) = Some wif ->
  truthy (argv !! 4%nat) = Some toAddress ->
  truthy (argv !! 5%nat) = Some amountBtc ->
  truthy (argv !! 6%nat) = Some feeRate ->
  JS.ascii_only netArg = true ->
  JS.exact_parseInt feeRate = true ->
  FetchUtxosAndBuild.from_address lib netArg wif = Ok fromAddress ->
  fetch_get world
    (FetchUtxosAndBuild.baseUrl (FetchUtxosAndBuild.select_network netArg)
       +:+ "/address/" +:+ fromAddress +:+ "/utxo") = Ok resp ->
  ok resp = true ->
  json resp = Ok us ->
  us <> [] ->
  address_toOutputScript lib fromAddress (FetchUtxosAndBuild.select_network netArg) =
    Ok owner_script ->
  FetchUtxosAndBuild.run lib world argv =
  ([ console_log ("Derived address from WIF: " +:+ fromAddress);
     external (http_get (FetchUtxosAndBuild.baseUrl (FetchUtxosAndBuild.select_network netArg)
                           +:+ "/address/" +:+ fromAddress +:+ "/utxo"));
     print_transfer_input
       {| network_name := JS.toLowerCase netArg;
          to_address := toAddress;
          amount_btc := amountBtc;
          change_address := fromAddress;
          fee_rate_sat_per_vb := JS.parseInt10 feeRate;
          assume_taproot := false;
          utxos := map (fun u => {| txid := JS.prop u "txid";
                                    vout := JS.prop u "vout";
                                    amount_sats := JS.prop u "value";
                                    script_pubkey_hex := JS.toHexString owner_script;
                                    sequence := JS.null |}) us |} ],
   Return tt).
Proof.
  intros H2 H3 H4 H5 H6 _ _ Haddr Hfetch Hok Hjson Hne Hscript.
  unfold FetchUtxosAndBuild.run, FetchUtxosAndBuild.main.
  rewrite H2, H3, H4, H5, H6. cbv zeta.
  rewrite Haddr, bind_lift_ok, !bind_emit, Hfetch, bind_lift_ok, Hok. cbn [negb].
  rewrite Hjson, bind_lift_ok. unfold FetchUtxosAndBuild.build.
  destruct us as [|u us]; [congruence|]. cbn [length Nat.eqb].
  rewrite (map_descriptors_returns lib _ _ owner_script (u :: us) Hscript).
  reflexivity.
Qed.

(** X10 at work: a fee rate that is no number is not refused; it goes into
    the body as NaN. *)
Lemma run_prints_expected_body_witness :
  FetchUtxosAndBuild.run (Fixture.lib Fixture.b64 []) (Fixture.world [Fixture.utxo_1])
    ["node"; "fetch_utxos_and_build.js"; "TESTNET"; Fixture.wif_a; "tb1qdest"; "0.00009"; "fast"] =
  ([ console_log "Derived address from WIF: tb1qab";
     external (http_get "https://blockstream.info/testnet/api/address/tb1qab/utxo");
     print_transfer_input
       {| network_name := "testnet";
          to_address := "tb1qdest";
          amount_btc := "0.00009";
          change_address := "tb1qab";
          fee_rate_sat_per_vb := None;
          assume_taproot := false;
          utxos := [ {| txid := JS.str "ab12";
                        vout := JS.number 1;
                        amount_sats := JS.number 20000;
                        script_pubkey_hex := "00146162";
                        sequence := JS.null |} ] |} ],
   Return tt).
Proof.
  exact (run_prints_expected_body (Fixture.lib Fixture.b64 []) (Fixture.world [Fixture.utxo_1])
           ["node"; "fetch_utxos_and_build.js"; "TESTNET"; Fixture.wif_a; "tb1qdest"; "0.00009"; "fast"]
           "TESTNET" Fixture.wif_a "tb1qdest" "0.00009" "fast" "tb1qab"
           {| ok := true; status := 200; statusText := "OK"; text := Ok "";
              json := Ok [Fixture.utxo_1] |}
           [Fixture.utxo_1] [x00; x14; x61; x62]
           eq_refl eq_refl eq_refl eq_refl eq_refl eq_refl eq_refl
           eq_refl eq_refl eq_refl eq_refl
           ltac:(discriminate) eq_refl).
Defined.

Lemma bodies_app (l1 l2 : list event) : bodies (l1 ++ l2) = (bodies l1 ++ bodies l2)%list.
Proof. induction l1 as [|[| | | |[]] l1 IH]; cbn; rewrite ?IH; reflexivity. Qed.

Lemma map_descriptors_ends (lib : BitcoinJS) (a : string) (net : network)
    (us : list (gmap string JS.value)) :
  match ended (FetchUtxosAndBuild.map_descriptors lib a net us) with
  | Return _ | Throw _ => True
  | _ => False
  end.
Proof.
  induction us as [|u us IH]; [exact I|].
  cbn [FetchUtxosAndBuild.map_descriptors]. unfold FetchUtxosAndBuild.to_descriptor.
  destruct (FetchUtxosAndBuild.getP2WPKHScriptPubKeyHex lib a net); [|exact I].
  rewrite bind_lift_ok, bind_ret, ended_bind.
  destruct (ended (FetchUtxosAndBuild.map_descriptors lib a net us)); auto.
Qed.

(** X11: fetch_utxos_and_build.js ends in one of three ways.  Its own three
    checks (arguments, HTTP status, empty list) print a line on
    [console.error] and exit with status 1.  An error thrown by a library, by
    [fetch] or by the JSON parser is printed on [console.error] and the run
    then ends normally.  Otherwise the body is the last thing printed.  No
    run prints more than one body or makes more than one GET. *)
Theorem run_endings (lib : BitcoinJS) (world : World) (argv : list string) :
  let run := FetchUtxosAndBuild.run lib world argv in
  (length (gets (trace run)) <= 1)%nat /\
  ((ended run = Exit 1 /\ bodies (trace run) = [] /\
    exists line, last (trace run) = Some (console_error line) /\
      (line = FetchUtxosAndBuild.usage \/
       line = "No UTXOs found for this address." \/
       exists statusText, line = "Error fetching UTXOs: " +:+ statusText)) \/
   (ended run = Return tt /\ bodies (trace run) = [] /\
    exists message,
      ended (FetchUtxosAndBuild.main lib world argv) = Throw message /\
      last (trace run) = Some (console_error message)) \/
   (ended run = Return tt /\
    exists body, bodies (trace run) = [body] /\
      last (trace run) = Some (print_transfer_input body))).
Proof.
  cbv zeta. unfold FetchUtxosAndBuild.run, FetchUtxosAndBuild.main.
  destruct (truthy (argv !! 2%nat)) as [netArg|]; [|cbn; split; [lia|left; eauto 10]].
  destruct (truthy (argv !! 3%nat)) as [wif|]; [|cbn; split; [lia|left; eauto 10]].
  destruct (truthy (argv !! 4%nat)) as [toAddress|]; [|cbn; split; [lia|left; eauto 10]].
  destruct (truthy (argv !! 5%nat)) as [amountBtc|]; [|cbn; split; [lia|left; eauto 10]].
  destruct (truthy (argv !! 6%nat)) as [feeRate|]; [|cbn; split; [lia|left; eauto 10]].
  cbv zeta.
  destruct (FetchUtxosAndBuild.from_address lib netArg wif) as [fromAddress|];
    [rewrite bind_lift_ok|cbn; split; [lia|right; left; eauto 10]].
  rewrite !bind_emit.
  destruct (fetch_get world _) as [resp|];
    [rewrite bind_lift_ok|cbn; split; [lia|right; left; eauto 10]].
  destruct (ok resp); cbn [negb]; [|cbn; split; [lia|left; eauto 10]].
  destruct (json resp) as [us|];
    [rewrite bind_lift_ok|cbn; split; [lia|right; left; eauto 10]].
  unfold FetchUtxosAndBuild.build.
  destruct us as [|u us]; [cbn; split; [lia|left; eauto 10]|].
  cbn [length Nat.eqb].
  pose proof (map_descriptors_silent lib fromAddress
                (FetchUtxosAndBuild.select_network netArg) (u :: us)) as Hsilent.
  pose proof (map_descriptors_ends lib fromAddress
                (FetchUtxosAndBuild.select_network netArg) (u :: us)) as Hends.
  destruct (FetchUtxosAndBuild.map_descriptors lib fromAddress _ (u :: us)) as [tr [ds| | |]];
    cbn [trace ended fst snd] in Hsilent, Hends; subst tr; try contradiction;
    cbn; (split; [lia|]).
  - right. right. eauto.
  - right. left. eauto 10.
Qed.

Lemma run_with_body (lib : BitcoinJS) (world : World) (argv : list string)
    (netArg wif toAddress amountBtc feeRate fromAddress : string) (resp : Response)
    (us : list (gmap string JS.value)) (ds : list utxo_descriptor) :
  truthy (argv !! 2%nat) = Some netArg ->
  truthy (argv !! 3%nat) = Some wif ->
  truthy (argv !! 4%nat) = Some toAddress ->
  truthy (argv !! 5%nat) = Some amountBtc ->
  truthy (argv !! 6%nat) = Some feeRate ->
  FetchUtxosAndBuild.from_address lib netArg wif = Ok fromAddress ->
  fetch_get world
    (FetchUtxosAndBuild.baseUrl (FetchUtxosAndBuild.select_network netArg)
       +:+ "/address/" +:+ fromAddress +:+ "/utxo") = Ok resp ->
  ok resp = true ->
  json resp = Ok us ->
  us <> [] ->
  ended (FetchUtxosAndBuild.map_descriptors lib fromAddress
           (FetchUtxosAndBuild.select_network netArg) us) = Return ds ->
  trace (FetchUtxosAndBuild.run lib world argv) =
  [ console_log ("Derived address from WIF: " +:+ fromAddress);
    external (http_get (FetchUtxosAndBuild.baseUrl (FetchUtxosAndBuild.select_network netArg)
                          +:+ "/address/" +:+ fromAddress +:+ "/utxo"));
    print_transfer_input
      {| network_name := JS.toLowerCase netArg;
         to_address := toAddress;
         amount_btc := amountBtc;
         change_address := fromAddress;
         fee_rate_sat_per_vb := JS.parseInt10 feeRate;
         assume_taproot := false;
         utxos := ds |} ].
Proof.
  intros H2 H3 H4 H5 H6 Haddr Hfetch Hok Hjson Hne Hds.
  unfold FetchUtxosAndBuild.run, FetchUtxosAndBuild.main.
  rewrite H2, H3, H4, H5, H6. cbv zeta.
  rewrite Haddr, bind_lift_ok, !bind_emit, Hfetch, bind_lift_ok, Hok. cbn [negb].
  rewrite Hjson, bind_lift_ok. unfold FetchUtxosAndBuild.build.
  destruct us as [|u us]; [congruence|]. cbn [length Nat.eqb].
  pose proof (map_descriptors_silent lib fromAddress
                (FetchUtxosAndBuild.select_network netArg) (u :: us)) as Hsilent.
  destruct (FetchUtxosAndBuild.map_descriptors lib fromAddress _ (u :: us)) as [tr e].
  cbn [trace ended fst snd] in Hsilent, Hds. subst tr e. reflexivity.
Qed.

(** X12: the UTXOs in a printed body were asked for the body's change
    address, at the testnet explorer when the body's "network" field is
    "testnet" and at the mainnet explorer in every other case, also for a
    field such as "signet" or "regtest".  That field is the selector in
    lower case (shown here for a selector of ASCII characters, where the
    lowercasing is JavaScript's), whatever name it is. *)
Theorem body_network_and_explorer (lib : BitcoinJS) (world : World) (argv : list string)
    (body : transfer_input) :
  print_transfer_input body ∈ trace (FetchUtxosAndBuild.run lib world argv) ->
  (exists netArg,
     truthy (argv !! 2%nat) = Some netArg /\
     (JS.ascii_only netArg = true -> network_name body = JS.toLowerCase netArg)) /\
  gets (trace (FetchUtxosAndBuild.run lib world argv)) =
    [ (if decide (network_name body = "testnet")
       then "https://blockstream.info/testnet/api"
       else "https://blockstream.info/api")
      +:+ "/address/" +:+ change_address body +:+ "/utxo" ].
Proof.
  intros H. apply run_prints_body_inv in H
    as (netArg & wif & toAddress & amountBtc & feeRate & fromAddress & resp & us & ds
        & H2 & H3 & H4 & H5 & H6 & Haddr & Hfetch & Hok & Hjson & Hne & Hds & ->).
  split; [eauto|].
  rewrite (run_with_body lib world argv netArg wif toAddress amountBtc feeRate fromAddress
             resp us ds) by assumption.
  cbn [gets network_name change_address]. rewrite select_network_two_way.
  repeat case_decide; reflexivity.
Qed.

(** X12 at work: the selector "signet" gives a body for "signet" whose
    UTXOs come from the mainnet explorer. *)
Lemma body_network_and_explorer_witness :
  gets (trace (FetchUtxosAndBuild.run (Fixture.lib Fixture.b64 []) (Fixture.world [Fixture.utxo_1])
                 ["node"; "fetch_utxos_and_build.js"; "signet"; "Kba"; "bc1qdest"; "0.1"; "5"])) =
    [ "https://blockstream.info/api/address/bc1qab/utxo" ] /\
  exists body,
    bodies (trace (FetchUtxosAndBuild.run (Fixture.lib Fixture.b64 [])
                     (Fixture.world [Fixture.utxo_1])
                     ["node"; "fetch_utxos_and_build.js"; "signet"; "Kba"; "bc1qdest"; "0.1"; "5"])) =
      [body] /\
    network_name body = "signet".
Proof.
  split; [|eexists; split; vm_compute; reflexivity].
  refine (proj2 (body_network_and_explorer (Fixture.lib Fixture.b64 [])
                   (Fixture.world [Fixture.utxo_1])
                   ["node"; "fetch_utxos_and_build.js"; "signet"; "Kba"; "bc1qdest"; "0.1"; "5"]
                   {| network_name := "signet";
                      to_address := "bc1qdest";
                      amount_btc := "0.1";
                      change_address := "bc1qab";
                      fee_rate_sat_per_vb := Some 5;
                      assume_taproot := false;
                      utxos := [ {| txid := JS.str "ab12";
                                    vout := JS.number 1;
                                    amount_sats := JS.number 20000;
                                    script_pubkey_hex := "00146162";
                                    sequence := JS.null |} ] |} _)).
  vm_compute. listed.
Defined.

Lemma to_descriptor_other_field (lib : BitcoinJS) (a : string) (net : network)
    (u : gmap string JS.value) (k : string) (v : JS.value) :
  k <> "txid" -> k <> "vout" -> k <> "value" ->
  FetchUtxosAndBuild.to_descriptor lib a net (<[k:=v]> u) =
  FetchUtxosAndBuild.to_descriptor lib a net u.
Proof.
  intros H1 H2 H3. unfold FetchUtxosAndBuild.to_descriptor, JS.prop.
  rewrite !lookup_insert_ne by assumption. reflexivity.
Qed.

(** X13: a descriptor is made of the "txid", "vout" and "value" of its UTXO
    and of nothing else in it: setting any other property of the entries the
    explorer sent (a "scriptpubkey", a "status") changes nothing of what is
    printed. *)
Theorem other_fields_do_not_matter (lib : BitcoinJS)
    (netArg toAddress amountBtc feeRate fromAddress : string) (net : network)
    (us : list (gmap string JS.value)) (k : string) (v : JS.value) :
  k <> "txid" -> k <> "vout" -> k <> "value" ->
  FetchUtxosAndBuild.build lib netArg toAddress amountBtc feeRate fromAddress net
    (map (fun u => <[k:=v]> u) us) =
  FetchUtxosAndBuild.build lib netArg toAddress amountBtc feeRate fromAddress net us.
Proof.
  intros H1 H2 H3. unfold FetchUtxosAndBuild.build. rewrite length_map.
  replace (FetchUtxosAndBuild.map_descriptors lib fromAddress net (map (fun u => <[k:=v]> u) us))
    with (FetchUtxosAndBuild.map_descriptors lib fromAddress net us); [reflexivity|].
  induction us as [|u us IH]; [reflexivity|].
  cbn [map FetchUtxosAndBuild.map_descriptors].
  rewrite to_descriptor_other_field by assumption. now rewrite IH.
Qed.

(** X13 at work: the entry with its "scriptpubkey" replaced. *)
Lemma other_fields_do_not_matter_witness :
  FetchUtxosAndBuild.build (Fixture.lib Fixture.b64 []) "testnet" "tb1qdest" "0.00009" "5"
    "tb1qab" networks_testnet [<["scriptpubkey" := JS.str "0014eeee"]> Fixture.utxo_1] =
  FetchUtxosAndBuild.build (Fixture.lib Fixture.b64 []) "testnet" "tb1qdest" "0.00009" "5"
    "tb1qab" networks_testnet [Fixture.utxo_1].
Proof.
  exact (other_fields_do_not_matter (Fixture.lib Fixture.b64 []) "testnet" "tb1qdest" "0.00009"
           "5" "tb1qab" networks_testnet [Fixture.utxo_1] "scriptpubkey" (JS.str "0014eeee")
           ltac:(discriminate) ltac:(discriminate) ltac:(discriminate)).
Defined.

(** X14: fetch_utxos_and_build.js prints its usage line and exits with
    status 1, having done nothing else, exactly when one of its five
    arguments is missing or empty. *)
Theorem build_usage_iff_argument_missing (lib : BitcoinJS) (world : World)
    (argv : list string) :
  FetchUtxosAndBuild.run lib world argv =
    ([console_error FetchUtxosAndBuild.usage], Exit 1) <->
  truthy (argv !! 2%nat) = None \/ truthy (argv !! 3%nat) = None \/
  truthy (argv !! 4%nat) = None \/ truthy (argv !! 5%nat) = None \/
  truthy (argv !! 6%nat) = None.
Proof.
  unfold FetchUtxosAndBuild.run, FetchUtxosAndBuild.main.
  destruct (truthy (argv !! 2%nat)) as [netArg|]; [|cbn; tauto].
  destruct (truthy (argv !! 3%nat)) as [wif|]; [|cbn; tauto].
  destruct (truthy (argv !! 4%nat)) as [toAddress|]; [|cbn; tauto].
  destruct (truthy (argv !! 5%nat)) as [amountBtc|]; [|cbn; tauto].
  destruct (truthy (argv !! 6%nat)) as [feeRate|]; [|cbn; tauto].
  split; [|intros [H|[H|[H|[H|H]]]]; discriminate]. intros H. exfalso. revert H. cbv zeta.
  destruct (FetchUtxosAndBuild.from_address lib netArg wif) as [fromAddress|];
    [rewrite bind_lift_ok|cbn; intros [=]].
  rewrite bind_emit. intros H. apply (f_equal trace) in H.
  rewrite trace_try_catch in H. cbn in H. discriminate.
Qed.

Lemma or_empty_some (s : string) : JS.or_empty (Some s) = s.
Proof. cbn. destruct (String.eqb_spec s ""); congruence. Qed.

(** X15: the two scripts read the selector differently.  For a selector
    that is, in lower case, "mainnet", "bitcoin" or "testnet" they take the
    same network.  For "regtest" sign_and_broadcast.js takes the library's
    regtest network and fetch_utxos_and_build.js takes mainnet.  What
    sign_and_broadcast.js rejects, fetch_utxos_and_build.js takes for
    mainnet.  (For "signet" the former takes [bitcoin.networks.signet],
    whatever the library makes of it, and the latter mainnet; nothing is
    stated about it.) *)
Theorem scripts_agree_on_network (netArg : string) :
  (JS.toLowerCase netArg ∈ ["mainnet"; "bitcoin"; "testnet"] ->
   SignAndBroadcast.getNetwork (Some netArg) = Ok (FetchUtxosAndBuild.select_network netArg)) /\
  (JS.toLowerCase netArg = "regtest" ->
   SignAndBroadcast.getNetwork (Some netArg) = Ok networks_regtest /\
   FetchUtxosAndBuild.select_network netArg = networks_bitcoin) /\
  (JS.toLowerCase netArg ∉ resolved_names ->
   SignAndBroadcast.getNetwork (Some netArg) = Thrown ("Unknown network: " +:+ netArg) /\
   FetchUtxosAndBuild.select_network netArg = networks_bitcoin).
Proof.
  unfold SignAndBroadcast.getNetwork, FetchUtxosAndBuild.select_network, resolved_names.
  rewrite or_empty_some. set (n := JS.toLowerCase netArg).
  rewrite !elem_of_cons, elem_of_nil.
  destruct (String.eqb_spec n "mainnet") as [->|H1]; [cbn; intuition congruence|].
  destruct (String.eqb_spec n "bitcoin") as [->|H2]; [cbn; intuition congruence|].
  destruct (String.eqb_spec n "testnet") as [->|H3]; [cbn; intuition congruence|].
  destruct (String.eqb_spec n "signet") as [->|H4]; [cbn; intuition congruence|].
  destruct (String.eqb_spec n "regtest") as [->|H5]; [cbn; intuition congruence|].
  cbn. intuition congruence.
Qed.

(** ** Every run of inspect_psbt.js *)

Section Inspect.

Context (lib : BitcoinJS).

Local Abbreviation decodable :=
  (fun s => is_thrown (address_fromOutputScript lib s networks_testnet) = false).
Local Abbreviation for_testnet := (fun s : JS.Buffer => (s, networks_testnet)).

Lemma print_input_cases (idx : nat) (input : PsbtInput) :
  match witnessUtxo input with
  | None =>
      InspectPsbt.print_input lib idx input =
      ([console_log ("Input " +:+ pretty idx +:+ ":");
        console_log "  Missing witnessUtxo!"], Return tt)
  | Some utxo =>
      match address_fromOutputScript lib (script utxo) networks_testnet with
      | Ok addr =>
          InspectPsbt.print_input lib idx input =
          ([console_log ("Input " +:+ pretty idx +:+ ":");
            console_log ("  Value (sats): " +:+ pretty (value utxo));
            console_log ("  ScriptPubKey hex: " +:+ JS.toHexString (script utxo));
            external (fromOutputScript_called (script utxo) networks_testnet);
            console_log ("  Address: " +:+ addr)], Return tt)
      | Thrown message =>
          InspectPsbt.print_input lib idx input =
          ([console_log ("Input " +:+ pretty idx +:+ ":");
            console_log ("  Value (sats): " +:+ pretty (value utxo));
            console_log ("  ScriptPubKey hex: " +:+ JS.toHexString (script utxo));
            external (fromOutputScript_called (script utxo) networks_testnet)],
           Throw message)
      end
  end.
Proof.
  unfold InspectPsbt.print_input. destruct (witnessUtxo input) as [utxo|]; [|reflexivity].
  destruct (address_fromOutputScript lib (script utxo) networks_testnet); reflexivity.
Qed.

Lemma witness_scripts_cons (input : PsbtInput) (inputs : list PsbtInput) :
  witness_scripts (input :: inputs) =
  match witnessUtxo input with
  | Some utxo => script utxo :: witness_scripts inputs
  | None => witness_scripts inputs
  end.
Proof. unfold witness_scripts. cbn. now destruct (witnessUtxo input). Qed.

Lemma for_each_decodes (inputs : list PsbtInput) :
  forall idx,
    decode_calls (trace (InspectPsbt.for_each lib idx inputs)) `prefix_of`
      map for_testnet (witness_scripts inputs) /\
    (ended (InspectPsbt.for_each lib idx inputs) = Return tt <->
     Forall decodable (witness_scripts inputs)) /\
    (ended (InspectPsbt.for_each lib idx inputs) = Return tt ->
     decode_calls (trace (InspectPsbt.for_each lib idx inputs)) =
       map for_testnet (witness_scripts inputs)).
Proof.
  induction inputs as [|input inputs IH]; intros idx.
  - cbn. repeat split; auto.
  - cbn [InspectPsbt.for_each]. pose proof (print_input_cases idx input) as Hp.
    destruct (IH (S idx)) as (Hpre & Hret & Hall).
    rewrite witness_scripts_cons.
    destruct (witnessUtxo input) as [utxo|].
    + destruct (address_fromOutputScript lib (script utxo) networks_testnet)
        as [addr|message] eqn:Hd; rewrite Hp.
      * rewrite bind_Return. cbn [trace ended fst snd decode_calls app map].
        rewrite Forall_cons, Hd. cbn [is_thrown].
        split; [now apply prefix_cons|]. split; [tauto|]. intros H. f_equal. auto.
      * cbn [bind trace ended fst snd decode_calls map].
        rewrite Forall_cons, Hd. cbn [is_thrown].
        split; [apply prefix_cons, prefix_nil|]. split; [|discriminate].
        split; [discriminate|]. intros [H _]. discriminate.
    + rewrite Hp, bind_Return. cbn [trace ended fst snd decode_calls app]. auto.
Qed.

(** X16: inspect_psbt.js decodes the script of each input that carries a
    [witnessUtxo], once, in input order and for testnet, and passes over the
    inputs that carry none; it stops at the first script that
    [fromOutputScript] rejects, so it gets to the end exactly when every
    script decodes. *)
Theorem inspect_decodes_each_script (argv : list string) (psbt : Psbt lib) :
  Psbt_fromBase64 lib (argv !! 2%nat) None = Ok psbt ->
  decode_calls (trace (InspectPsbt.main lib argv)) `prefix_of`
    map for_testnet (witness_scripts (data_inputs lib psbt)) /\
  (ended (InspectPsbt.main lib argv) = Return tt <->
   Forall decodable (witness_scripts (data_inputs lib psbt))) /\
  (ended (InspectPsbt.main lib argv) = Return tt ->
   decode_calls (trace (InspectPsbt.main lib argv)) =
     map for_testnet (witness_scripts (data_inputs lib psbt))).
Proof.
  intros Hpsbt. unfold InspectPsbt.main. rewrite Hpsbt, bind_lift_ok.
  apply for_each_decodes.
Qed.

Lemma for_each_app (l1 l2 : list PsbtInput) :
  forall idx,
    InspectPsbt.for_each lib idx (l1 ++ l2) =
    bind (InspectPsbt.for_each lib idx l1)
      (fun _ => InspectPsbt.for_each lib (idx + length l1) l2).
Proof.
  induction l1 as [|input l1 IH]; intros idx.
  - cbn. rewrite Nat.add_0_r. now destruct (InspectPsbt.for_each lib idx l2).
  - cbn [app InspectPsbt.for_each length]. rewrite IH.
    replace (idx + S (length l1))%nat with (S idx + length l1)%nat by lia.
    destruct (InspectPsbt.print_input lib idx input) as [tr [[]| | |]]; try reflexivity.
    rewrite !bind_Return.
    destruct (InspectPsbt.for_each lib (S idx) l1) as [tr1 [[]| | |]]; cbn;
      rewrite ?app_assoc; reflexivity.
Qed.

(** X17: when the script of input [k] is one that [fromOutputScript]
    rejects, and the inputs before it decode, inspect_psbt.js prints those
    inputs, then the header, value and script of input [k], and ends there on
    the uncaught error: no address for input [k], and nothing about the
    inputs after it. *)
Theorem inspect_stops_at_undecodable (argv : list string) (psbt : Psbt lib)
    (before after : list PsbtInput) (input : PsbtInput) (utxo : WitnessUtxo)
    (message : string) :
  Psbt_fromBase64 lib (argv !! 2%nat) None = Ok psbt ->
  data_inputs lib psbt = (before ++ input :: after)%list ->
  Forall decodable (witness_scripts before) ->
  witnessUtxo input = Some utxo ->
  address_fromOutputScript lib (script utxo) networks_testnet = Thrown message ->
  InspectPsbt.main lib argv =
  ((trace (InspectPsbt.for_each lib 0 before) ++
    [console_log ("Input " +:+ pretty (length before) +:+ ":");
     console_log ("  Value (sats): " +:+ pretty (value utxo));
     console_log ("  ScriptPubKey hex: " +:+ JS.toHexString (script utxo));
     external (fromOutputScript_called (script utxo) networks_testnet)])%list,
   Throw message).
Proof.
  intros Hpsbt Hinputs Hbefore Hutxo Hthrow.
  unfold InspectPsbt.main. rewrite Hpsbt, bind_lift_ok, Hinputs, for_each_app.
  destruct (for_each_decodes before 0) as (_ & Hret & _). apply Hret in Hbefore.
  destruct (InspectPsbt.for_each lib 0 before) as [tr e].
  cbn [trace ended fst snd] in *. subst e. rewrite bind_Return.
  cbn [Nat.add InspectPsbt.for_each].
  pose proof (print_input_cases (length before) input) as Hp.
  rewrite Hutxo, Hthrow in Hp. rewrite Hp. reflexivity.
Qed.

End Inspect.

(** X16 at work: three inputs with P2WPKH scripts. *)
Lemma inspect_decodes_each_script_witness :
  decode_calls (trace (InspectPsbt.main (Fixture.lib Fixture.b64 Fixture.psbt_mixed)
                         ["node"; "inspect_psbt.js"; Fixture.b64])) =
  [ ([x00; x14; x61; x62], networks_testnet);
    ([x00; x14; x79; x7a], networks_testnet);
    ([x00; x14; x61; x62], networks_testnet) ].
Proof.
  refine (proj2 (proj2 (inspect_decodes_each_script (Fixture.lib Fixture.b64 Fixture.psbt_mixed)
                          ["node"; "inspect_psbt.js"; Fixture.b64] Fixture.psbt_mixed eq_refl)) _).
  reflexivity.
Defined.

(** X17 at work: the second of three inputs has the script [6a]. *)
Lemma inspect_stops_at_undecodable_witness :
  InspectPsbt.main (Fixture.lib Fixture.b64 Fixture.psbt_odd_script)
    ["node"; "inspect_psbt.js"; Fixture.b64] =
  ([ console_log "Input 0:";
     console_log "  Value (sats): 20000";
     console_log "  ScriptPubKey hex: 00146162";
     external (fromOutputScript_called [x00; x14; x61; x62] networks_testnet);
     console_log "  Address: tb1qab";
     console_log "Input 1:";
     console_log "  Value (sats): 1";
     console_log "  ScriptPubKey hex: 6a";
     external (fromOutputScript_called [x6a] networks_testnet) ],
   Throw "6a has no matching Address").
Proof.
  exact (inspect_stops_at_undecodable (Fixture.lib Fixture.b64 Fixture.psbt_odd_script)
           ["node"; "inspect_psbt.js"; Fixture.b64] Fixture.psbt_odd_script
           [ {| witnessUtxo := Some {| value := 20000; script := [x00; x14; x61; x62] |} |} ]
           [ {| witnessUtxo := Some {| value := 7000; script := [x00; x14; x79; x7a] |} |} ]
           {| witnessUtxo := Some {| value := 1; script := [x6a] |} |}
           {| value := 1; script := [x6a] |}
           "6a has no matching Address"
           eq_refl eq_refl ltac:(repeat constructor) eq_refl eq_refl).
Defined.

(** ** The selector, across the scripts *)

Lemma lower_ascii_idempotent (c : ascii) :
  JS.lower_ascii (JS.lower_ascii c) = JS.lower_ascii c.
Proof. destruct c as [[] [] [] [] [] [] [] []]; reflexivity. Qed.

Lemma toLowerCase_idempotent (s : string) :
  JS.toLowerCase (JS.toLowerCase s) = JS.toLowerCase s.
Proof.
  induction s as [|c s IH]; [reflexivity|]. cbn. now rewrite lower_ascii_idempotent, IH.
Qed.

(** X18: letter case in the selector makes no difference to the network
    [getNetwork] resolves, to the endpoint [broadcastUrl] gives, or to the
    network fetch_utxos_and_build.js selects. *)
Theorem selector_case_insensitive (netArg : string) :
  (forall net, SignAndBroadcast.getNetwork (Some netArg) = Ok net <->
               SignAndBroadcast.getNetwork (Some (JS.toLowerCase netArg)) = Ok net) /\
  (forall url, SignAndBroadcast.broadcastUrl (Some netArg) = Ok url <->
               SignAndBroadcast.broadcastUrl (Some (JS.toLowerCase netArg)) = Ok url) /\
  FetchUtxosAndBuild.select_network netArg =
    FetchUtxosAndBuild.select_network (JS.toLowerCase netArg).
Proof.
  unfold SignAndBroadcast.getNetwork, SignAndBroadcast.broadcastUrl,
    FetchUtxosAndBuild.select_network.
  rewrite !or_empty_some, toLowerCase_idempotent.
  set (n := JS.toLowerCase netArg).
  repeat split; destruct (String.eqb n "mainnet"), (String.eqb n "bitcoin"),
    (String.eqb n "testnet"), (String.eqb n "signet"), (String.eqb n "regtest");
    cbn; auto; discriminate.
Qed.

(** X19: for a selector on which the two scripts agree, the address
    sign_and_broadcast.js shows first is the address
    fetch_utxos_and_build.js derives from the same WIF, the one it asks the
    explorer about and names as change address. *)
Theorem shown_address_is_change_address (lib : BitcoinJS) (world : World) (fuel : nat)
    (argv : list string) (netArg wif psbtB64 fromAddress : string) :
  truthy (argv !! 2%nat) = Some netArg ->
  truthy (argv !! 3%nat) = Some wif ->
  truthy (argv !! 4%nat) = Some psbtB64 ->
  SignAndBroadcast.getNetwork (Some netArg) = Ok (FetchUtxosAndBuild.select_network netArg) ->
  FetchUtxosAndBuild.from_address lib netArg wif = Ok fromAddress ->
  head (trace (SignAndBroadcast.main lib world fuel argv)) =
    Some (console_log ("WIF-derived address (p2wpkh): " +:+ fromAddress)).
Proof.
  intros H2 H3 H4 Hnet Haddr.
  unfold SignAndBroadcast.main, SignAndBroadcast.try_block.
  rewrite H2, H3, H4, Hnet, bind_lift_ok.
  unfold FetchUtxosAndBuild.from_address in Haddr. cbv zeta in Haddr.
  destruct (ECPair_fromWIF lib wif _) as [keyPair|]; [|discriminate].
  rewrite bind_lift_ok.
  destruct (payments_p2wpkh lib (publicKey lib keyPair) _) as [payment|]; [|discriminate].
  injection Haddr as <-. rewrite bind_lift_ok, bind_emit, trace_try_catch. reflexivity.
Qed.

(** X19 at work. *)
Lemma shown_address_is_change_address_witness :
  head (trace (SignAndBroadcast.main (Fixture.lib Fixture.b64 Fixture.psbt_single)
                 (Fixture.world []) 2 Fixture.argv_sign)) =
    Some (console_log "WIF-derived address (p2wpkh): tb1qab") /\
  FetchUtxosAndBuild.from_address (Fixture.lib Fixture.b64 Fixture.psbt_single)
    "testnet" Fixture.wif_a = Ok "tb1qab".
Proof.
  split; [|reflexivity].
  exact (shown_address_is_change_address (Fixture.lib Fixture.b64 Fixture.psbt_single)
           (Fixture.world []) 2 Fixture.argv_sign "testnet" Fixture.wif_a Fixture.b64 "tb1qab"
           eq_refl eq_refl eq_refl eq_refl eq_refl).
Defined.

(** X20: with the selector "regtest", in any letter case,
    sign_and_broadcast.js posts nothing and cannot end normally: it ends with
    status 1 or 2, the latest after printing the signed transaction. *)
Theorem regtest_never_posts (lib : BitcoinJS) (world : World) (fuel : nat)
    (argv : list string) (netArg : string) :
  argv !! 2%nat = Some netArg ->
  JS.toLowerCase netArg = "regtest" ->
  posts (trace (SignAndBroadcast.main lib world fuel argv)) = [] /\
  (ended (SignAndBroadcast.main lib world fuel argv) = Exit 1 \/
   ended (SignAndBroadcast.main lib world fuel argv) = Exit 2 \/
   ended (SignAndBroadcast.main lib world fuel argv) = OutOfFuel).
Proof.
  intros Hsel Hreg.
  assert (Hurl : forall url, SignAndBroadcast.broadcastUrl (Some netArg) <> Ok url).
  { intros url. unfold SignAndBroadcast.broadcastUrl. rewrite or_empty_some, Hreg.
    discriminate. }
  main_cases lib world fuel argv; norm_run; auto;
    match goal with
    | H : argv !! 2%nat = Some ?n |- _ =>
        rewrite Hsel in H; injection H as <-
    end;
    exfalso; eapply Hurl; eassumption.
Qed.

(** X20 at work: a regtest run that gets through extraction. *)
Lemma regtest_never_posts_witness :
  posts (trace (SignAndBroadcast.main (Fixture.lib Fixture.b64 Fixture.psbt_single)
                  (Fixture.world []) 2
                  ["node"; "sign_and_broadcast.js"; "RegTest"; Fixture.wif_a; Fixture.b64])) = [] /\
  printed_txs (trace (SignAndBroadcast.main (Fixture.lib Fixture.b64 Fixture.psbt_single)
                        (Fixture.world []) 2
                        ["node"; "sign_and_broadcast.js"; "RegTest"; Fixture.wif_a; Fixture.b64])) <> [] /\
  ended (SignAndBroadcast.main (Fixture.lib Fixture.b64 Fixture.psbt_single)
           (Fixture.world []) 2
           ["node"; "sign_and_broadcast.js"; "RegTest"; Fixture.wif_a; Fixture.b64]) = Exit 1.
Proof.
  split; [|split; [vm_compute; discriminate|vm_compute; reflexivity]].
  exact (proj1 (regtest_never_posts (Fixture.lib Fixture.b64 Fixture.psbt_single)
                  (Fixture.world []) 2
                  ["node"; "sign_and_broadcast.js"; "RegTest"; Fixture.wif_a; Fixture.b64]
                  "RegTest" eq_refl eq_refl)).
Defined.
